(** * Task manager backend: a shallow embedding of [app/routes.py] and [app/db.py]

    The five request handlers of [backend/app/routes.py] are embedded as
    computations over an explicit model of the SQLAlchemy session they
    receive from [get_db] ([backend/app/db.py]).  The session model keeps

    - the committed rows of the table (what every later request sees),
    - the rows as seen inside the transaction that is currently open,
    - the ORM instances the handler holds references to (they are mutable
      Python objects shared between the handler and the session, so they
      live in a store and the handler only holds their addresses),
    - the unit of work ([new], [dirty], [deleted]),
    - the sequence of storage calls made so far.

    Every storage call may raise: an oracle [faults : nat -> bool] says
    whether the n-th storage call of the request raises.  The handlers'
    [try] / [except] blocks are embedded as they are written.

    Requests are served one at a time, each on a session of its own, as
    [get_db] provides it.  The calls to the logger have no effect on the
    session or on the response and are left out, as are the CORS
    middleware and the two informational endpoints of [app/main.py]. *)

From Stdlib Require Import ZArith List String Bool Lia DecimalString.
Import ListNotations.
Local Open Scope Z_scope.

(* ================================================================== *)
(** ** Data shapes ([app.models]) *)
(* ================================================================== *)

(** Modelled from the spec: [app/models.py] is imported by [routes.py]
    ([Task as TaskModel], [TaskCreate], [TaskUpdate], [TaskResponse]).
    The Task JSON shape of the spec is
    [{id: integer, title: string, description: string|null, completed: boolean}];
    it is the shape of a row of the table and of a [TaskResponse]. *)
Module Task.
Record t := mk {
    id : Z;
    title : string;
    description : option string;
    completed : bool
  }.

Definition eqb_id (i : Z) (r : t) : bool := Z.eqb (id r) i.
End Task.

(** Modelled from the spec: the ORM class [TaskModel].  An instance has
    the columns of a row; its [id] is [None] until storage assigns one
    ("id: integer, unique, assigned by storage on creation"). *)
Module TaskModel.
Record t := mk {
    id : option Z;
    title : string;
    description : option string;
    completed : bool
  }.

Definition of_row (r : Task.t) : t :=
    mk (Some (Task.id r)) (Task.title r) (Task.description r) (Task.completed r).

Definition with_id (i : Z) (o : t) : t :=
    mk (Some i) (title o) (description o) (completed o).

Definition row (i : Z) (o : t) : Task.t :=
    Task.mk i (title o) (description o) (completed o).
End TaskModel.

(** Modelled from the spec: the response shape.  [response_model=TaskResponse]
    reads the attributes of the returned instance; [id] is an integer in the
    response, so an instance without id does not serialise. *)
Module TaskResponse.
Definition from_orm (o : TaskModel.t) : option Task.t :=
    match TaskModel.id o with
    | Some i => Some (TaskModel.row i o)
    | None => None
    end.
End TaskResponse.

(** Modelled from the spec: the create shape, "title (required, rejected if
    empty/missing), description (optional), completed (optional, defaults
    false)".  [body] is the request body as received, a field that is not
    in the body is [None]; [validate] is the check made on it before the
    handler runs. *)
Module TaskCreate.
Record body := mk_body {
    body_title : option string;
    body_description : option string;
    body_completed : option bool
  }.

Record t := mk {
    title : string;
    description : option string;
    completed : bool
  }.

Definition validate (b : body) : option t :=
    match body_title b with
    | None => None
    | Some s =>
        if String.eqb s EmptyString then None
        else Some (mk s (body_description b)
                        (match body_completed b with Some c => c | None => false end))
    end.
End TaskCreate.

(** Modelled from the spec: the update shape, "zero or more of
    {title, description, completed}".  A field that was not set in the
    request is [None]; a field that was set carries its value (for
    [description] the value may be null).  A title, when given, is a title
    of the data model ("text, required, non-empty"); a malformed update
    payload is rejected before any storage access. *)
Module TaskUpdate.
Record t := mk {
    title : option string;
    description : option (option string);
    completed : option bool
  }.

Definition validate (u : t) : option t :=
    match title u with
    | Some s => if String.eqb s EmptyString then None else Some u
    | None => Some u
    end.

  (** One item of [task_update.dict(exclude_unset=True)]: a field name
      together with the value of that field. *)
Inductive item :=
  | item_title (value : string)
  | item_description (value : option string)
  | item_completed (value : bool).

Definition opt_item {A} (f : A -> item) (o : option A) : list item :=
    match o with Some v => [f v] | None => [] end.

  (** [dict(exclude_unset=True).items()]: the fields that were set, in the
      order of the fields. *)
Definition dict_exclude_unset (u : t) : list item :=
    opt_item item_title (title u) ++
    opt_item item_description (description u) ++
    opt_item item_completed (completed u).
End TaskUpdate.

(* ================================================================== *)
(** ** The engine configuration ([app/db.py], lines 17-25) *)
(* ================================================================== *)

Module Config.

(** [os.getenv(key, default)]: the value of the variable when it is set,
    the default when it is not. *)
Definition getenv (environ : string -> option string) (key default : string)
  : string :=
  match environ key with
  | Some value => value
  | None => default
  end.

(** db.py line 17. *)
Definition DATABASE_URL (environ : string -> option string) : string :=
  getenv environ "DATABASE_URL" "sqlite:///./tasks.db".

(** [needle in haystack] on two [str]: [needle] occurs somewhere in
    [haystack]. *)
Fixpoint contains (needle haystack : string) : bool :=
  if String.prefix needle haystack then true
  else match haystack with
       | EmptyString => false
       | String _ rest => contains needle rest
       end.

(** What [create_engine] is called with. *)
Record Engine := mkEngine {
  url : string;
  connect_args : list (string * bool);
  echo : bool
}.

(** db.py lines 21-25. *)
Definition engine (environ : string -> option string) : Engine :=
  mkEngine (DATABASE_URL environ)
    (if contains "sqlite" (DATABASE_URL environ)
     then [("check_same_thread"%string, false)]
     else [])
    false.

End Config.

(* ================================================================== *)
(** ** The storage session ([app.db], SQLAlchemy [Session]) *)
(* ================================================================== *)

Module Db.

(** The storage calls a handler can make on its session. *)
Inductive db_call :=
| QUERY | ADD | DELETE | FLUSH | COMMIT | REFRESH | ROLLBACK.

(** What can be raised while a request is handled: the [HTTPException] a
    handler builds itself, an exception coming out of a storage call, or
    the framework's error for a returned value that does not fit the
    response model. *)
Inductive exn :=
| HTTPException (status_code : Z) (detail : string)
| SQLAlchemyError
| ResponseValidationError.

Inductive result (A : Type) :=
| Ok (a : A)
| Raise (e : exn).
Arguments Ok {A} a.
Arguments Raise {A} e.

(** Address of an ORM instance in the store of the session. *)
Definition ref := nat.

Record Session := mkSession {
  table : list Task.t;
  txn : option (list Task.t);
  heap : list TaskModel.t;
  new : list ref;
  dirty : list ref;
  deleted : list ref;
  log : list db_call
}.

(** [SessionLocal()] on a database whose table holds [rows]
    ([autocommit=False, autoflush=False]): nothing loaded, nothing pending,
    no transaction open. *)
Definition SessionLocal (rows : list Task.t) : Session :=
  mkSession rows None [] [] [] [] [].

(** [db.close()]: whatever was not committed is dropped; the database keeps
    the committed rows. *)
Definition close (s : Session) : list Task.t := table s.

(** The rows a statement of this session sees: those of its open
    transaction if it has written, the committed ones otherwise. *)
Definition view (s : Session) : list Task.t :=
  match txn s with
  | Some w => w
  | None => table s
  end.

Definition with_heap (h : list TaskModel.t) (s : Session) : Session :=
  mkSession (table s) (txn s) h (new s) (dirty s) (deleted s) (log s).

Definition with_log (l : list db_call) (s : Session) : Session :=
  mkSession (table s) (txn s) (heap s) (new s) (dirty s) (deleted s) l.

(** A handler: it reads the fault oracle, threads the session, and returns
    a value or raises. *)
Definition M (A : Type) : Type := (nat -> bool) -> Session -> result A * Session.

Definition ret {A} (a : A) : M A := fun _ s => (Ok a, s).

Definition bind {A B} (m : M A) (k : A -> M B) : M B :=
  fun faults s =>
    match m faults s with
    | (Ok a, s') => k a faults s'
    | (Raise e, s') => (Raise e, s')
    end.

Definition raise {A} (e : exn) : M A := fun _ s => (Raise e, s).

(** [try: body except Exception as e: handler e] *)
Definition try_except {A} (body : M A) (handler : exn -> M A) : M A :=
  fun faults s =>
    match body faults s with
    | (Ok a, s') => (Ok a, s')
    | (Raise e, s') => handler e faults s'
    end.

(** A storage call: it is recorded, and it raises when the oracle says that
    the call with this number does. *)
Definition call {A} (c : db_call) (body : Session -> result A * Session) : M A :=
  fun faults s =>
    let s1 := with_log (log s ++ [c]) s in
    if faults (List.length (log s)) then (Raise SQLAlchemyError, s1) else body s1.

Notation "x <- c1 ;; c2" := (bind c1 (fun x => c2))
  (at level 61, c1 at next level, right associativity).
Notation "c1 ;; c2" := (bind c1 (fun _ => c2))
  (at level 61, right associativity).

(** [for x in xs: body x] *)
Fixpoint for_each {A} (xs : list A) (body : A -> M unit) : M unit :=
  match xs with
  | [] => ret tt
  | x :: xs' => body x ;; for_each xs' body
  end.

(** *** The store of ORM instances *)

Fixpoint store_at (r : ref) (o : TaskModel.t) (h : list TaskModel.t)
  : list TaskModel.t :=
  match h, r with
  | [], _ => []
  | _ :: h', O => o :: h'
  | x :: h', S r' => x :: store_at r' o h'
  end.

(** [setattr(obj, field, value)] on the attributes of one instance. *)
Definition set_item (it : TaskUpdate.item) (o : TaskModel.t) : TaskModel.t :=
  match it with
  | TaskUpdate.item_title v =>
      TaskModel.mk (TaskModel.id o) v (TaskModel.description o) (TaskModel.completed o)
  | TaskUpdate.item_description v =>
      TaskModel.mk (TaskModel.id o) (TaskModel.title o) v (TaskModel.completed o)
  | TaskUpdate.item_completed v =>
      TaskModel.mk (TaskModel.id o) (TaskModel.title o) (TaskModel.description o) v
  end.

(** [TaskModel(title=..., description=..., completed=...)]: a new instance,
    not yet known to the session, without id. *)
Definition new_TaskModel (title : string) (description : option string)
  (completed : bool) : M ref :=
  fun _ s =>
    (Ok (List.length (heap s)),
     with_heap (heap s ++ [TaskModel.mk None title description completed]) s).

(** [setattr(db_task, field, value)]: the instance is changed in place and,
    being attached to the session, is from now on in [dirty] (a set of
    instances: it is entered once). *)
Definition setattr (r : ref) (it : TaskUpdate.item) : M unit :=
  fun _ s =>
    match nth_error (heap s) r with
    | Some o =>
        (Ok tt,
         mkSession (table s) (txn s) (store_at r (set_item it o) (heap s)) (new s)
           (match TaskModel.id o with
            | Some _ => if existsb (Nat.eqb r) (dirty s) then dirty s else dirty s ++ [r]
            | None => dirty s
            end)
           (deleted s) (log s))
    | None => (Raise SQLAlchemyError, s)
    end.

(** *** Queries *)

(** [db.query(TaskModel).all()]: every row the session sees, in the order of
    the table, each loaded as an instance. *)
Definition query_all : M (list ref) :=
  call QUERY (fun s =>
    let rows := view s in
    (Ok (seq (List.length (heap s)) (List.length rows)),
     with_heap (heap s ++ map TaskModel.of_row rows) s)).

(** [db.query(TaskModel).filter(TaskModel.id == task_id).first()] *)
Definition query_filter_id_first (task_id : Z) : M (option ref) :=
  call QUERY (fun s =>
    match find (Task.eqb_id task_id) (view s) with
    | Some row =>
        (Ok (Some (List.length (heap s))),
         with_heap (heap s ++ [TaskModel.of_row row]) s)
    | None => (Ok None, s)
    end).

(** *** The unit of work *)

(** [db.add(obj)]: an instance without id becomes pending; an instance that
    was loaded from the table is attached already. *)
Definition db_add (r : ref) : M unit :=
  call ADD (fun s =>
    match nth_error (heap s) r with
    | Some o =>
        match TaskModel.id o with
        | None =>
            (Ok tt,
             mkSession (table s) (txn s) (heap s) (new s ++ [r]) (dirty s)
               (deleted s) (log s))
        | Some _ => (Ok tt, s)
        end
    | None => (Raise SQLAlchemyError, s)
    end).

(** [db.delete(obj)]: marks a loaded instance for deletion. *)
Definition db_delete (r : ref) : M unit :=
  call DELETE (fun s =>
    match nth_error (heap s) r with
    | Some o =>
        match TaskModel.id o with
        | Some _ =>
            (Ok tt,
             mkSession (table s) (txn s) (heap s) (new s) (dirty s)
               (deleted s ++ [r]) (log s))
        | None => (Raise SQLAlchemyError, s)
        end
    | None => (Raise SQLAlchemyError, s)
    end).

(** The id storage gives to an inserted row.  The default store of
    [app/db.py] is SQLite ([sqlite:///./tasks.db]); an integer primary key
    is then the rowid: 1 in an empty table, one more than the largest id
    otherwise. *)
Definition next_id (rows : list Task.t) : Z :=
  match map Task.id rows with
  | [] => 1
  | i :: ids => fold_left Z.max ids i + 1
  end.

(** INSERT of every pending instance; the instance receives its id. *)
Fixpoint flush_new (rs : list ref) (w : list Task.t) (h : list TaskModel.t)
  : list Task.t * list TaskModel.t :=
  match rs with
  | [] => (w, h)
  | r :: rs' =>
      match nth_error h r with
      | Some o =>
          let i := next_id w in
          flush_new rs' (w ++ [TaskModel.row i o]) (store_at r (TaskModel.with_id i o) h)
      | None => flush_new rs' w h
      end
  end.

Definition update_row (i : Z) (o : TaskModel.t) (w : list Task.t) : list Task.t :=
  map (fun x => if Task.eqb_id i x then TaskModel.row i o else x) w.

(** UPDATE ... WHERE id = i of every dirty instance; an UPDATE that matches
    no row raises. *)
Fixpoint flush_dirty (rs : list ref) (h : list TaskModel.t) (w : list Task.t)
  : option (list Task.t) :=
  match rs with
  | [] => Some w
  | r :: rs' =>
      match nth_error h r with
      | Some o =>
          match TaskModel.id o with
          | Some i =>
              if existsb (Task.eqb_id i) w
              then flush_dirty rs' h (update_row i o w)
              else None
          | None => flush_dirty rs' h w
          end
      | None => flush_dirty rs' h w
      end
  end.

Definition delete_row (i : Z) (w : list Task.t) : list Task.t :=
  filter (fun x => negb (Task.eqb_id i x)) w.

(** DELETE ... WHERE id = i of every instance marked for deletion. *)
Fixpoint flush_deleted (rs : list ref) (h : list TaskModel.t) (w : list Task.t)
  : list Task.t :=
  match rs with
  | [] => w
  | r :: rs' =>
      match nth_error h r with
      | Some o =>
          match TaskModel.id o with
          | Some i => flush_deleted rs' h (delete_row i w)
          | None => flush_deleted rs' h w
          end
      | None => flush_deleted rs' h w
      end
  end.

(** The flush that [db.commit()] starts with: the statements of the unit of
    work are executed inside the transaction, inserts first, then updates,
    then deletes.  Nothing is visible outside the session yet. *)
Definition db_flush : M unit :=
  call FLUSH (fun s =>
    let (w1, h1) := flush_new (new s) (view s) (heap s) in
    match flush_dirty (dirty s) h1 w1 with
    | Some w2 =>
        (Ok tt,
         mkSession (table s) (Some (flush_deleted (deleted s) h1 w2)) h1 [] [] []
           (log s))
    | None =>
        (Raise SQLAlchemyError,
         mkSession (table s) (Some w1) h1 (new s) (dirty s) (deleted s) (log s))
    end).

(** COMMIT: the rows of the transaction become the committed rows. *)
Definition db_commit_txn : M unit :=
  call COMMIT (fun s =>
    (Ok tt,
     mkSession (view s) None (heap s) (new s) (dirty s) (deleted s) (log s))).

(** [db.commit()] *)
Definition db_commit : M unit :=
  db_flush ;; db_commit_txn.

(** [db.refresh(obj)]: the attributes of the instance are read again from
    its row; raises when the instance has no row. *)
Definition db_refresh (r : ref) : M unit :=
  call REFRESH (fun s =>
    match nth_error (heap s) r with
    | Some o =>
        match TaskModel.id o with
        | Some i =>
            match find (Task.eqb_id i) (view s) with
            | Some row =>
                (Ok tt, with_heap (store_at r (TaskModel.of_row row) (heap s)) s)
            | None => (Raise SQLAlchemyError, s)
            end
        | None => (Raise SQLAlchemyError, s)
        end
    | None => (Raise SQLAlchemyError, s)
    end).

(** [db.rollback()]: the open transaction and the unit of work are dropped.
    It is a storage call like the others and may raise; the handlers call
    it inside their [except] branch, so an exception of the rollback is
    not caught by the handler. *)
Definition db_rollback : M unit :=
  call ROLLBACK (fun s =>
    (Ok tt, mkSession (table s) None (heap s) [] [] [] (log s))).

(** [get_db]: one session per request, closed when the request is done,
    whatever the outcome. *)
Definition get_db {A} (request : M A) (faults : nat -> bool)
  (rows : list Task.t) : result A * list Task.t :=
  let db := SessionLocal rows in
  let (r, db') := request faults db in
  (r, close db').

End Db.

(* ================================================================== *)
(** ** The request handlers ([app/routes.py]) *)
(* ================================================================== *)

Module Routes.
Import Db.

Definition HTTP_200_OK : Z := 200.
Definition HTTP_201_CREATED : Z := 201.
Definition HTTP_204_NO_CONTENT : Z := 204.
Definition HTTP_404_NOT_FOUND : Z := 404.
Definition HTTP_500_INTERNAL_SERVER_ERROR : Z := 500.

(** [f"{task_id}"] *)
Definition str (z : Z) : string := NilZero.string_of_int (Z.to_int z).

Definition not_found_detail (task_id : Z) : string :=
  ("Task with id " ++ str task_id ++ " not found")%string.

(** [get_tasks], routes.py lines 28-50. *)
Definition get_tasks : M (list ref) :=
  try_except
    (tasks <- query_all ;;
     ret tasks)
    (fun e =>
       raise (HTTPException HTTP_500_INTERNAL_SERVER_ERROR "Failed to fetch tasks")).

(** [get_task], routes.py lines 53-88. *)
Definition get_task (task_id : Z) : M ref :=
  try_except
    (task <- query_filter_id_first task_id ;;
     match task with
     | None =>
         raise (HTTPException HTTP_404_NOT_FOUND (not_found_detail task_id))
     | Some task => ret task
     end)
    (fun e =>
       match e with
       | HTTPException _ _ => raise e
       | _ =>
           raise (HTTPException HTTP_500_INTERNAL_SERVER_ERROR "Failed to fetch task")
       end).

(** [create_task], routes.py lines 96-133. *)
Definition create_task (task_data : TaskCreate.t) : M ref :=
  try_except
    (new_task <- new_TaskModel (TaskCreate.title task_data)
                               (TaskCreate.description task_data)
                               (TaskCreate.completed task_data) ;;
     db_add new_task ;;
     db_commit ;;
     db_refresh new_task ;;
     ret new_task)
    (fun e =>
       db_rollback ;;
       raise (HTTPException HTTP_500_INTERNAL_SERVER_ERROR "Failed to create task")).

(** [update_task], routes.py lines 141-192. *)
Definition update_task (task_id : Z) (task_update : TaskUpdate.t) : M ref :=
  try_except
    (db_task <- query_filter_id_first task_id ;;
     match db_task with
     | None =>
         raise (HTTPException HTTP_404_NOT_FOUND (not_found_detail task_id))
     | Some db_task =>
         let update_data := TaskUpdate.dict_exclude_unset task_update in
         for_each update_data (fun item => setattr db_task item) ;;
         db_add db_task ;;
         db_commit ;;
         db_refresh db_task ;;
         ret db_task
     end)
    (fun e =>
       match e with
       | HTTPException _ _ => raise e
       | _ =>
           db_rollback ;;
           raise (HTTPException HTTP_500_INTERNAL_SERVER_ERROR "Failed to update task")
       end).

(** [delete_task], routes.py lines 200-239. *)
Definition delete_task (task_id : Z) : M unit :=
  try_except
    (db_task <- query_filter_id_first task_id ;;
     match db_task with
     | None =>
         raise (HTTPException HTTP_404_NOT_FOUND (not_found_detail task_id))
     | Some db_task =>
         db_delete db_task ;;
         db_commit
     end)
    (fun e =>
       match e with
       | HTTPException _ _ => raise e
       | _ =>
           db_rollback ;;
           raise (HTTPException HTTP_500_INTERNAL_SERVER_ERROR "Failed to delete task")
       end).

End Routes.

(* ================================================================== *)
(** ** The HTTP surface ([app/main.py], the decorators of [routes.py]) *)
(* ================================================================== *)

Module Api.
Import Db Routes.

Inductive request :=
| GET_tasks
| GET_task (task_id : Z)
| POST_tasks (body : TaskCreate.body)
| PUT_task (task_id : Z) (body : TaskUpdate.t)
| DELETE_task (task_id : Z).

Inductive content :=
| tasks_json (tasks : list Task.t)
| task_json (task : Task.t)
| no_content.

(** A response: a success with its status code and content, an error with
    its status code and detail, or the rejection of a body that does not
    validate (it is produced before the handler is called). *)
Inductive response :=
| Success (status_code : Z) (body : content)
| Failure (status_code : Z) (detail : string)
| ValidationError.

(** [response_model=TaskResponse]: the returned instance is read while the
    session is still open. *)
Definition serialize (r : ref) : M Task.t :=
  fun _ s =>
    match nth_error (heap s) r with
    | Some o =>
        match TaskResponse.from_orm o with
        | Some t => (Ok t, s)
        | None => (Raise ResponseValidationError, s)
        end
    | None => (Raise ResponseValidationError, s)
    end.

(** [response_model=List[TaskResponse]] *)
Fixpoint serialize_all (rs : list ref) : M (list Task.t) :=
  match rs with
  | [] => ret []
  | r :: rs' =>
      t <- serialize r ;;
      ts <- serialize_all rs' ;;
      ret (t :: ts)
  end.

(** What the client receives for the outcome of a handler: an
    [HTTPException] becomes its status and detail, anything else that
    escapes is the framework's plain 500. *)
Definition respond (status_code : Z) (r : result content) : response :=
  match r with
  | Ok c => Success status_code c
  | Raise (HTTPException code detail) => Failure code detail
  | Raise _ =>
      Failure HTTP_500_INTERNAL_SERVER_ERROR "Internal Server Error"
  end.

(** The endpoint of a request, with its session dependency. *)
Definition endpoint (req : request) : option (Z * M content) :=
  match req with
  | GET_tasks =>
      Some (HTTP_200_OK,
            tasks <- get_tasks ;; ts <- serialize_all tasks ;; ret (tasks_json ts))
  | GET_task task_id =>
      Some (HTTP_200_OK,
            task <- get_task task_id ;; t <- serialize task ;; ret (task_json t))
  | POST_tasks body =>
      match TaskCreate.validate body with
      | Some task_data =>
          Some (HTTP_201_CREATED,
                task <- create_task task_data ;; t <- serialize task ;;
                ret (task_json t))
      | None => None
      end
  | PUT_task task_id body =>
      match TaskUpdate.validate body with
      | Some task_update =>
          Some (HTTP_200_OK,
                task <- update_task task_id task_update ;; t <- serialize task ;;
                ret (task_json t))
      | None => None
      end
  | DELETE_task task_id =>
      Some (HTTP_204_NO_CONTENT,
            delete_task task_id ;; ret no_content)
  end.

(** One request served on the database [rows]: the response, and the
    database after the request. *)
Definition serve (req : request) (faults : nat -> bool) (rows : list Task.t)
  : response * list Task.t :=
  match endpoint req with
  | Some (status_code, handler) =>
      let (r, rows') := get_db handler faults rows in
      (respond status_code r, rows')
  | None => (ValidationError, rows)
  end.

(** Storage that never raises. *)
Definition no_faults : nat -> bool := fun _ => false.

(** A sequence of requests, each with the faults of its storage calls,
    served one after the other; the responses come back in order. *)
Fixpoint serve_all (reqs : list (request * (nat -> bool))) (rows : list Task.t)
  : list response * list Task.t :=
  match reqs with
  | [] => ([], rows)
  | (req, faults) :: reqs' =>
      let (resp, rows1) := serve req faults rows in
      let (resps, rows2) := serve_all reqs' rows1 in
      (resp :: resps, rows2)
  end.

End Api.

Import Db Routes Api.

(* ================================================================== *)
(** ** Vocabulary of the properties *)
(* ================================================================== *)

Definition ids (rows : list Task.t) : list Z := map Task.id rows.

(** The row [create_task] inserts into [rows]. *)
Definition created (rows : list Task.t) (d : TaskCreate.t) : Task.t :=
  Task.mk (next_id rows) (TaskCreate.title d) (TaskCreate.description d)
    (TaskCreate.completed d).

(** The row of a task after the [setattr] loop of [update_task] has run
    over the fields of [u] that were set. *)
Definition patched (u : TaskUpdate.t) (r : Task.t) : Task.t :=
  Task.mk (Task.id r)
    (match TaskUpdate.title u with Some v => v | None => Task.title r end)
    (match TaskUpdate.description u with Some v => v | None => Task.description r end)
    (match TaskUpdate.completed u with Some v => v | None => Task.completed r end).

(** The table after the flush of [update_task]: no UPDATE is issued when no
    field was set. *)
Definition updated (i : Z) (u : TaskUpdate.t) (r : Task.t) (rows : list Task.t)
  : list Task.t :=
  match TaskUpdate.dict_exclude_unset u with
  | [] => rows
  | _ :: _ => update_row i (TaskModel.of_row (patched u r)) rows
  end.

(** The answer to a request whose handler went into its [except] branch:
    [k] is the number of the rollback among the storage calls.  When the
    rollback passes, the answer is the 500 of the handler with its detail;
    when the rollback raises too, the exception leaves the handler and the
    answer is the plain 500 of the framework. *)
Definition after_rollback (faults : nat -> bool) (k : nat) (detail : string)
  : response :=
  Failure 500 (if faults k then "Internal Server Error" else detail).

(** The invariant of the data model: unique ids, non-empty titles. *)
Definition Inv (rows : list Task.t) : Prop :=
  NoDup (ids rows) /\ Forall (fun t => Task.title t <> EmptyString) rows.

(** A session with no transaction open and nothing pending. *)
Definition clean (s : Session) : Prop :=
  txn s = None /\ new s = [] /\ dirty s = [] /\ deleted s = [].

(** What one answered request tells about the task with id [j]: a
    successful create or update returns the record it wrote, a successful
    delete removed the task, anything else wrote nothing. *)
Definition record (j : Z) (h : request * response) (known : option Task.t)
  : option Task.t :=
  match h with
  | (POST_tasks _, Success _ (task_json t)) =>
      if Task.id t =? j then Some t else known
  | (PUT_task _ _, Success _ (task_json t)) =>
      if Task.id t =? j then Some t else known
  | (DELETE_task i, Success _ _) =>
      if i =? j then None else known
  | _ => known
  end.

(** The record last written to task [j] according to a history of requests
    and their responses; [None] when the task was never created, or was
    deleted since. *)
Fixpoint last_written (j : Z) (history : list (request * response))
  (known : option Task.t) : option Task.t :=
  match history with
  | [] => known
  | h :: history' => last_written j history' (record j h known)
  end.

(** Requests served by a storage that never raises. *)
Definition fault_free (reqs : list request) : list (request * (nat -> bool)) :=
  map (fun req => (req, no_faults)) reqs.

(** The three mutating handlers, seen as one family. *)
Inductive mutation :=
| Create (task_data : TaskCreate.t)
| Update (task_id : Z) (task_update : TaskUpdate.t)
| Delete (task_id : Z).

Definition mutate (m : mutation) : M unit :=
  match m with
  | Create task_data => _ <- create_task task_data ;; ret tt
  | Update task_id task_update => _ <- update_task task_id task_update ;; ret tt
  | Delete task_id => delete_task task_id
  end.




(** Sample data. *)
Definition milk : Task.t := Task.mk 1 "Buy milk" None false.
Definition eggs : Task.t := Task.mk 2 "Buy eggs" (Some "a dozen"%string) true.
Definition buy_milk : TaskCreate.body :=
  TaskCreate.mk_body (Some "Buy milk"%string) None None.
Definition only_completed : TaskUpdate.t :=
  TaskUpdate.mk None None (Some true).
Definition refresh_raises : nat -> bool := fun k => Nat.eqb k 3.

(** The detail of the 500 a handler answers with, whatever was raised. *)
Definition generic_detail (req : request) : string :=
  match req with
  | GET_tasks => "Failed to fetch tasks"
  | GET_task _ => "Failed to fetch task"
  | POST_tasks _ => "Failed to create task"
  | PUT_task _ _ => "Failed to update task"
  | DELETE_task _ => "Failed to delete task"
  end.

(** The task a request names in its path. *)
Definition addressed (req : request) : option Z :=
  match req with
  | GET_task task_id => Some task_id
  | PUT_task task_id _ => Some task_id
  | DELETE_task task_id => Some task_id
  | _ => None
  end.

(** The requests whose handler has a commit-or-rollback unit. *)
Definition writes (req : request) : bool :=
  match req with
  | POST_tasks _ => true
  | PUT_task _ _ => true
  | DELETE_task _ => true
  | _ => false
  end.

(** The one id whose task a request may write: the id in the path, or for
    a create the id storage would assign. *)
Definition touched (req : request) (rows : list Task.t) : option Z :=
  match req with
  | POST_tasks _ => Some (next_id rows)
  | PUT_task task_id _ => Some task_id
  | DELETE_task task_id => Some task_id
  | _ => None
  end.

(** The update that sets every field [u2] sets, to the value of [u2], and
    every other field [u1] sets, to the value of [u1]. *)
Definition then_update (u1 u2 : TaskUpdate.t) : TaskUpdate.t :=
  TaskUpdate.mk
    (match TaskUpdate.title u2 with Some v => Some v | None => TaskUpdate.title u1 end)
    (match TaskUpdate.description u2 with
     | Some v => Some v
     | None => TaskUpdate.description u1
     end)
    (match TaskUpdate.completed u2 with
     | Some v => Some v
     | None => TaskUpdate.completed u1
     end).

(** The update request with an empty body. *)
Definition no_fields : TaskUpdate.t := TaskUpdate.mk None None None.

(** An environment in which [DATABASE_URL] names a PostgreSQL database. *)
Definition postgres_environ (key : string) : option string :=
  if String.eqb key "DATABASE_URL"
  then Some "postgresql://db.example/sqlite_copy"%string
  else None.

(* ================================================================== *)
(** ** Rows and identifiers *)
(* ================================================================== *)

Lemma row_of_row (r : Task.t) :
  TaskModel.row (Task.id r) (TaskModel.of_row r) = r.
Proof. destruct r; reflexivity. Qed.

Lemma from_orm_of_row (r : Task.t) :
  TaskResponse.from_orm (TaskModel.of_row r) = Some r.
Proof. destruct r; reflexivity. Qed.

Lemma eqb_id_true (i : Z) (r : Task.t) :
  Task.eqb_id i r = true <-> Task.id r = i.
Proof. unfold Task.eqb_id. apply Z.eqb_eq. Qed.

Lemma eqb_id_false (i : Z) (r : Task.t) :
  Task.eqb_id i r = false <-> Task.id r <> i.
Proof. unfold Task.eqb_id. apply Z.eqb_neq. Qed.

Lemma find_id_Some (i : Z) (rows : list Task.t) (r : Task.t) :
  find (Task.eqb_id i) rows = Some r -> In r rows /\ Task.id r = i.
Proof.
  intros H. apply find_some in H. destruct H as [Hin Heq].
  split; [assumption | now apply eqb_id_true].
Qed.

Lemma find_id_None (i : Z) (rows : list Task.t) :
  find (Task.eqb_id i) rows = None <-> ~ In i (ids rows).
Proof.
  unfold ids. induction rows as [|x rows IH]; simpl.
  - tauto.
  - destruct (Task.eqb_id i x) eqn:E.
    + apply eqb_id_true in E. split; [discriminate | intros H; exfalso; apply H; now left].
    + apply eqb_id_false in E. rewrite IH. tauto.
Qed.

Lemma find_id_In (i : Z) (rows : list Task.t) :
  In i (ids rows) -> exists r, find (Task.eqb_id i) rows = Some r.
Proof.
  intros H. destruct (find (Task.eqb_id i) rows) as [r|] eqn:E.
  - now exists r.
  - apply find_id_None in E. contradiction.
Qed.

(** With unique ids, the row a query by id finds is the only row with
    that id. *)
Lemma find_id_unique (rows : list Task.t) (r : Task.t) :
  NoDup (ids rows) -> In r rows ->
  find (Task.eqb_id (Task.id r)) rows = Some r.
Proof.
  unfold ids. induction rows as [|x rows IH]; simpl; intros Hnd Hin.
  - contradiction.
  - inversion Hnd as [|? ? Hx Hnd']; subst.
    destruct Hin as [->|Hin].
    + now rewrite (proj2 (eqb_id_true _ _) eq_refl).
    + destruct (Task.eqb_id (Task.id r) x) eqn:E.
      * apply eqb_id_true in E. exfalso. apply Hx. rewrite E.
        now apply in_map.
      * now apply IH.
Qed.

Lemma existsb_id_find (i : Z) (rows : list Task.t) (r : Task.t) :
  find (Task.eqb_id i) rows = Some r -> existsb (Task.eqb_id i) rows = true.
Proof.
  intros H. apply find_some in H. apply existsb_exists. now exists r.
Qed.

Lemma fold_max_ge (l : list Z) (a : Z) : a <= fold_left Z.max l a.
Proof.
  revert a. induction l as [|x l IH]; simpl; intros a; [lia|].
  specialize (IH (Z.max a x)). lia.
Qed.

Lemma fold_max_In (l : list Z) (a x : Z) : In x l -> x <= fold_left Z.max l a.
Proof.
  revert a. induction l as [|y l IH]; simpl; intros a Hin; [contradiction|].
  destruct Hin as [->|Hin].
  - pose proof (fold_max_ge l (Z.max a x)). lia.
  - now apply IH.
Qed.

(** The id storage assigns is larger than every id of the table. *)
Lemma next_id_above (rows : list Task.t) (i : Z) :
  In i (ids rows) -> i < next_id rows.
Proof.
  unfold next_id, ids. destruct (map Task.id rows) as [|a l]; simpl; [contradiction|].
  intros [->|Hin].
  - pose proof (fold_max_ge l i). lia.
  - pose proof (fold_max_In l a i Hin). lia.
Qed.

Lemma next_id_fresh (rows : list Task.t) : ~ In (next_id rows) (ids rows).
Proof. intros H. apply next_id_above in H. lia. Qed.

(* ================================================================== *)
(** ** Running the handlers *)
(* ================================================================== *)

(** Symbolic execution of a handler on a session: the monad, the storage
    calls and the record projections are unfolded, and what is stuck on a
    test of the oracle or on a query over the rows is left for a case
    analysis. *)
Ltac unfold_m1 :=
  cbv beta iota zeta delta
    [serve endpoint get_db respond get_task get_tasks create_task update_task
     delete_task try_except bind ret raise call query_filter_id_first query_all
     serialize db_add db_commit db_flush db_commit_txn db_refresh db_rollback
     db_delete new_TaskModel setattr close view with_heap with_log
     SessionLocal table txn heap new dirty deleted log
     TaskModel.id TaskModel.title TaskModel.description TaskModel.completed
     TaskModel.with_id TaskModel.row TaskModel.of_row TaskResponse.from_orm
     set_item TaskUpdate.dict_exclude_unset TaskUpdate.opt_item
     TaskUpdate.title TaskUpdate.description TaskUpdate.completed];
  cbn beta iota zeta delta
    [app List.length nth_error flush_new flush_dirty flush_deleted store_at
     existsb Nat.eqb orb andb negb for_each Task.id Task.title Task.description Task.completed].

Ltac unfold_m := repeat (progress unfold_m1).

(** [GET /tasks/{task_id}] *)
Lemma serve_GET_task (faults : nat -> bool) (i : Z) (rows : list Task.t) :
  serve (GET_task i) faults rows =
  (if faults 0%nat then Failure 500 "Failed to fetch task"
   else match find (Task.eqb_id i) rows with
        | Some r => Success 200 (task_json r)
        | None => Failure 404 (not_found_detail i)
        end, rows).
Proof.
  unfold_m.
  destruct (faults 0%nat); [reflexivity|].
  destruct (find (Task.eqb_id i) rows) as [r|]; [|reflexivity].
  unfold_m. now destruct r.
Qed.

Lemma serialize_all_loaded (faults : nat -> bool) (s : Session)
  (h0 : list TaskModel.t) (rows : list Task.t) :
  heap s = h0 ++ map TaskModel.of_row rows ->
  serialize_all (seq (List.length h0) (List.length rows)) faults s = (Ok rows, s).
Proof.
  revert h0. induction rows as [|r rows IH]; intros h0 Hh; simpl.
  - reflexivity.
  - unfold bind at 1. unfold serialize.
    rewrite Hh, nth_error_app2 by lia.
    rewrite Nat.sub_diag. simpl nth_error. cbv beta iota.
    rewrite from_orm_of_row.
    unfold bind, ret.
    replace (S (List.length h0)) with (List.length (h0 ++ [TaskModel.of_row r]))
      by (rewrite length_app; simpl; lia).
    rewrite (IH (h0 ++ [TaskModel.of_row r])).
    + reflexivity.
    + rewrite Hh, <- app_assoc. reflexivity.
Qed.

(** [GET /tasks] *)
Lemma serve_GET_tasks (faults : nat -> bool) (rows : list Task.t) :
  serve GET_tasks faults rows =
  (if faults 0%nat then Failure 500 "Failed to fetch tasks"
   else Success 200 (tasks_json rows), rows).
Proof.
  unfold serve, endpoint, get_db, get_tasks, try_except, query_all, call.
  unfold bind at 1 2 3. unfold ret at 1. simpl.
  destruct (faults 0%nat); [reflexivity|].
  rewrite (serialize_all_loaded faults _ [] rows) by reflexivity.
  reflexivity.
Qed.

Lemma find_id_app_fresh (i : Z) (rows : list Task.t) (x : Task.t) :
  ~ In i (ids rows) ->
  find (Task.eqb_id i) (rows ++ [x]) = if Task.eqb_id i x then Some x else None.
Proof.
  intros H. apply find_id_None in H.
  induction rows as [|y rows IH]; simpl in *.
  - reflexivity.
  - destruct (Task.eqb_id i y); [discriminate | now apply IH].
Qed.

(** [POST /tasks] *)
Lemma serve_POST_tasks (faults : nat -> bool) (b : TaskCreate.body)
  (rows : list Task.t) :
  serve (POST_tasks b) faults rows =
  match TaskCreate.validate b with
  | None => (ValidationError, rows)
  | Some d =>
      if faults 0%nat
      then (after_rollback faults 1 "Failed to create task", rows)
      else if faults 1%nat
      then (after_rollback faults 2 "Failed to create task", rows)
      else if faults 2%nat
      then (after_rollback faults 3 "Failed to create task", rows)
      else if faults 3%nat
           then (after_rollback faults 4 "Failed to create task",
                 rows ++ [created rows d])
           else (Success 201 (task_json (created rows d)), rows ++ [created rows d])
  end.
Proof.
  unfold serve, endpoint, after_rollback.
  destruct (TaskCreate.validate b) as [d|]; [|reflexivity].
  unfold_m.
  destruct (faults 0%nat); unfold_m;
    [destruct (faults 1%nat); unfold_m; reflexivity|].
  destruct (faults 1%nat); unfold_m;
    [destruct (faults 2%nat); unfold_m; reflexivity|].
  destruct (faults 2%nat); unfold_m;
    [destruct (faults 3%nat); unfold_m; reflexivity|].
  destruct (faults 3%nat);
    [unfold_m; destruct (faults 4%nat); unfold_m; reflexivity|].
  rewrite find_id_app_fresh by apply next_id_fresh.
  unfold Task.eqb_id at 1. cbn [Task.id]. rewrite Z.eqb_refl.
  unfold_m. reflexivity.
Qed.

(** *** Rows after UPDATE and DELETE *)

Lemma find_update_row_same (i : Z) (o : TaskModel.t) (rows : list Task.t) (r : Task.t) :
  find (Task.eqb_id i) rows = Some r ->
  find (Task.eqb_id i) (update_row i o rows) = Some (TaskModel.row i o).
Proof.
  unfold update_row. induction rows as [|x rows IH]; simpl; [discriminate|].
  destruct (Task.eqb_id i x) eqn:E; simpl.
  - intros _. unfold Task.eqb_id. simpl. now rewrite Z.eqb_refl.
  - rewrite E. exact IH.
Qed.

Lemma find_update_row_other (i j : Z) (o : TaskModel.t) (rows : list Task.t) :
  j <> i ->
  find (Task.eqb_id j) (update_row i o rows) = find (Task.eqb_id j) rows.
Proof.
  intros Hji. unfold update_row. induction rows as [|x rows IH]; simpl; [reflexivity|].
  destruct (Task.eqb_id i x) eqn:E.
  - apply eqb_id_true in E.
    replace (Task.eqb_id j (TaskModel.row i o)) with false
      by (symmetry; apply eqb_id_false; simpl; congruence).
    replace (Task.eqb_id j x) with false
      by (symmetry; apply eqb_id_false; congruence).
    exact IH.
  - destruct (Task.eqb_id j x); [reflexivity | exact IH].
Qed.

Lemma ids_update_row (i : Z) (o : TaskModel.t) (rows : list Task.t) :
  ids (update_row i o rows) = ids rows.
Proof.
  unfold ids, update_row. rewrite map_map. apply map_ext_in.
  intros x _. destruct (Task.eqb_id i x) eqn:E; [|reflexivity].
  apply eqb_id_true in E. simpl. congruence.
Qed.

Lemma update_row_unique (rows : list Task.t) (r : Task.t) (o : TaskModel.t) :
  NoDup (ids rows) -> In r rows ->
  forall x, In x (update_row (Task.id r) o rows) <->
            x = TaskModel.row (Task.id r) o \/ (In x rows /\ Task.id x <> Task.id r).
Proof.
  intros Hnd Hin x. unfold update_row. rewrite in_map_iff. split.
  - intros [y [Hy Hiny]]. destruct (Task.eqb_id (Task.id r) y) eqn:E.
    + now left.
    + right. subst y. split; [assumption | now apply eqb_id_false].
  - intros [->|[Hx Hne]].
    + exists r. split; [|assumption].
      now rewrite (proj2 (eqb_id_true _ _) eq_refl).
    + exists x. split; [|assumption].
      now rewrite (proj2 (eqb_id_false _ _) Hne).
Qed.

Lemma find_delete_row_same (i : Z) (rows : list Task.t) :
  find (Task.eqb_id i) (delete_row i rows) = None.
Proof.
  apply find_id_None. unfold ids, delete_row. rewrite in_map_iff.
  intros [x [Hx Hin]]. apply filter_In in Hin. destruct Hin as [_ Hb].
  apply negb_true_iff, eqb_id_false in Hb. contradiction.
Qed.

Lemma find_delete_row_other (i j : Z) (rows : list Task.t) :
  j <> i ->
  find (Task.eqb_id j) (delete_row i rows) = find (Task.eqb_id j) rows.
Proof.
  intros Hji. unfold delete_row. induction rows as [|x rows IH]; simpl; [reflexivity|].
  destruct (Task.eqb_id i x) eqn:E; simpl.
  - apply eqb_id_true in E.
    replace (Task.eqb_id j x) with false
      by (symmetry; apply eqb_id_false; congruence).
    exact IH.
  - destruct (Task.eqb_id j x); [reflexivity | exact IH].
Qed.

Lemma In_delete_row (i : Z) (rows : list Task.t) (x : Task.t) :
  In x (delete_row i rows) <-> In x rows /\ Task.id x <> i.
Proof.
  unfold delete_row. rewrite filter_In, negb_true_iff, eqb_id_false. reflexivity.
Qed.

Lemma validate_update_Some (u u' : TaskUpdate.t) :
  TaskUpdate.validate u = Some u' -> u' = u.
Proof.
  unfold TaskUpdate.validate. destruct (TaskUpdate.title u) as [s|].
  - destruct (String.eqb s EmptyString); congruence.
  - congruence.
Qed.

(** [PUT /tasks/{task_id}] *)
Lemma serve_PUT_task (faults : nat -> bool) (i : Z) (u : TaskUpdate.t)
  (rows : list Task.t) :
  serve (PUT_task i u) faults rows =
  match TaskUpdate.validate u with
  | None => (ValidationError, rows)
  | Some _ =>
      if faults 0%nat
      then (after_rollback faults 1 "Failed to update task", rows)
      else match find (Task.eqb_id i) rows with
           | None => (Failure 404 (not_found_detail i), rows)
           | Some r =>
               if faults 1%nat
               then (after_rollback faults 2 "Failed to update task", rows)
               else if faults 2%nat
               then (after_rollback faults 3 "Failed to update task", rows)
               else if faults 3%nat
               then (after_rollback faults 4 "Failed to update task", rows)
               else if faults 4%nat
                    then (after_rollback faults 5 "Failed to update task",
                          updated i u r rows)
                    else (Success 200 (task_json (patched u r)), updated i u r rows)
           end
  end.
Proof.
  unfold serve, endpoint, after_rollback.
  destruct (TaskUpdate.validate u) as [u'|] eqn:V; [|reflexivity].
  apply validate_update_Some in V. subst u'.
  unfold_m.
  destruct (faults 0%nat); unfold_m;
    [destruct (faults 1%nat); unfold_m; reflexivity|].
  destruct (find (Task.eqb_id i) rows) as [r|] eqn:F; [|reflexivity].
  destruct (find_id_Some _ _ _ F) as [Hin <-].
  pose proof (existsb_id_find _ _ _ F) as E.
  unfold updated, patched.
  destruct u as [[t|] [d|] [c|]]; unfold_m;
    (destruct (faults 1%nat); unfold_m;
       [destruct (faults 2%nat); unfold_m; reflexivity|]);
    (destruct (faults 2%nat); unfold_m;
       [destruct (faults 3%nat); unfold_m; reflexivity|]);
    rewrite ?E; unfold_m;
    (destruct (faults 3%nat); unfold_m;
       [destruct (faults 4%nat); unfold_m; reflexivity|]);
    (destruct (faults 4%nat);
       [unfold_m; destruct (faults 5%nat); unfold_m; reflexivity|]);
    rewrite ?(find_update_row_same _ _ _ _ F), ?F; unfold_m;
    reflexivity.
Qed.

(** [DELETE /tasks/{task_id}] *)
Lemma serve_DELETE_task (faults : nat -> bool) (i : Z) (rows : list Task.t) :
  serve (DELETE_task i) faults rows =
  if faults 0%nat
  then (after_rollback faults 1 "Failed to delete task", rows)
  else match find (Task.eqb_id i) rows with
       | None => (Failure 404 (not_found_detail i), rows)
       | Some r =>
           if faults 1%nat
           then (after_rollback faults 2 "Failed to delete task", rows)
           else if faults 2%nat
           then (after_rollback faults 3 "Failed to delete task", rows)
           else if faults 3%nat
           then (after_rollback faults 4 "Failed to delete task", rows)
           else (Success 204 no_content, delete_row i rows)
       end.
Proof.
  unfold after_rollback. unfold_m.
  destruct (faults 0%nat); unfold_m;
    [destruct (faults 1%nat); unfold_m; reflexivity|].
  destruct (find (Task.eqb_id i) rows) as [r|] eqn:F; [|reflexivity].
  destruct (find_id_Some _ _ _ F) as [Hin <-].
  unfold_m.
  destruct (faults 1%nat); unfold_m;
    [destruct (faults 2%nat); unfold_m; reflexivity|].
  destruct (faults 2%nat); unfold_m;
    [destruct (faults 3%nat); unfold_m; reflexivity|].
  destruct (faults 3%nat); unfold_m;
    [destruct (faults 4%nat); unfold_m; reflexivity|].
  reflexivity.
Qed.

(** *** More on rows: deletion, update, uniqueness *)

Lemma length_delete_row_unique (i : Z) (rows : list Task.t) :
  NoDup (ids rows) -> In i (ids rows) ->
  List.length rows = S (List.length (delete_row i rows)).
Proof.
  unfold ids, delete_row. induction rows as [|x rows IH]; simpl; intros Hnd Hin.
  - contradiction.
  - inversion Hnd as [|? ? Hx Hnd']; subst.
    destruct (Task.eqb_id i x) eqn:E; simpl.
    + apply eqb_id_true in E. subst i. f_equal.
      clear IH Hin Hnd Hnd'. induction rows as [|y rows IH]; simpl; [reflexivity|].
      simpl in Hx. destruct (Task.eqb_id (Task.id x) y) eqn:E; simpl.
      * apply eqb_id_true in E. exfalso. apply Hx. now left.
      * f_equal. apply IH. tauto.
    + apply eqb_id_false in E. f_equal. apply IH; [assumption|].
      destruct Hin as [Hin|Hin]; [congruence | assumption].
Qed.

Lemma In_unique_id (rows : list Task.t) (x y : Task.t) :
  NoDup (ids rows) -> In x rows -> In y rows -> Task.id x = Task.id y -> x = y.
Proof.
  intros Hnd Hx Hy Heq.
  pose proof (find_id_unique rows x Hnd Hx) as Fx.
  pose proof (find_id_unique rows y Hnd Hy) as Fy.
  rewrite Heq in Fx. congruence.
Qed.

Lemma patched_unset (u : TaskUpdate.t) (r : Task.t) :
  TaskUpdate.dict_exclude_unset u = [] -> patched u r = r.
Proof.
  destruct u as [[t|] [d|] [c|]]; cbn; try discriminate.
  intros _. now destruct r.
Qed.

Lemma find_updated_same (i : Z) (u : TaskUpdate.t) (r : Task.t) (rows : list Task.t) :
  find (Task.eqb_id i) rows = Some r ->
  find (Task.eqb_id i) (updated i u r rows) = Some (patched u r).
Proof.
  intros F. unfold updated.
  destruct (TaskUpdate.dict_exclude_unset u) eqn:D.
  - now rewrite patched_unset.
  - rewrite (find_update_row_same _ _ _ _ F).
    destruct (find_id_Some _ _ _ F) as [_ <-]. reflexivity.
Qed.

Lemma find_updated_other (i j : Z) (u : TaskUpdate.t) (r : Task.t) (rows : list Task.t) :
  j <> i ->
  find (Task.eqb_id j) (updated i u r rows) = find (Task.eqb_id j) rows.
Proof.
  intros Hji. unfold updated.
  destruct (TaskUpdate.dict_exclude_unset u); [reflexivity|].
  now apply find_update_row_other.
Qed.

Lemma ids_updated (i : Z) (u : TaskUpdate.t) (r : Task.t) (rows : list Task.t) :
  ids (updated i u r rows) = ids rows.
Proof.
  unfold updated. destruct (TaskUpdate.dict_exclude_unset u); [reflexivity|].
  apply ids_update_row.
Qed.

Lemma In_updated (u : TaskUpdate.t) (r : Task.t) (rows : list Task.t) :
  NoDup (ids rows) -> In r rows ->
  forall x, In x (updated (Task.id r) u r rows) <->
            x = patched u r \/ (In x rows /\ Task.id x <> Task.id r).
Proof.
  intros Hnd Hin x. unfold updated.
  destruct (TaskUpdate.dict_exclude_unset u) eqn:D.
  - rewrite patched_unset by assumption. split.
    + intros Hx. destruct (Z.eq_dec (Task.id x) (Task.id r)) as [E|E].
      * left. now apply (In_unique_id rows).
      * now right.
    + intros [->|[Hx _]]; assumption.
  - now apply update_row_unique.
Qed.

Lemma patched_idempotent (u : TaskUpdate.t) (r : Task.t) :
  patched u (patched u r) = patched u r.
Proof.
  unfold patched. cbn.
  destruct (TaskUpdate.title u), (TaskUpdate.description u),
    (TaskUpdate.completed u); reflexivity.
Qed.

Lemma update_row_idempotent (i : Z) (o : TaskModel.t) (rows : list Task.t) :
  update_row i o (update_row i o rows) = update_row i o rows.
Proof.
  unfold update_row. rewrite map_map. apply map_ext. intros x.
  destruct (Task.eqb_id i x) eqn:E.
  - unfold Task.eqb_id. cbn. now rewrite Z.eqb_refl.
  - now rewrite E.
Qed.

Lemma updated_idempotent (i : Z) (u : TaskUpdate.t) (r : Task.t) (rows : list Task.t) :
  updated i u (patched u r) (updated i u r rows) = updated i u r rows.
Proof.
  unfold updated. destruct (TaskUpdate.dict_exclude_unset u); [reflexivity|].
  rewrite patched_idempotent. apply update_row_idempotent.
Qed.

(** *** The invariant is kept by every request *)

Lemma validate_create_title (b : TaskCreate.body) (d : TaskCreate.t) :
  TaskCreate.validate b = Some d -> TaskCreate.title d <> EmptyString.
Proof.
  unfold TaskCreate.validate. destruct (TaskCreate.body_title b) as [s|]; [|discriminate].
  destruct (String.eqb s EmptyString) eqn:E; [discriminate|].
  intros H. inversion H. cbn. now apply String.eqb_neq.
Qed.

Lemma validate_update_title (u u' : TaskUpdate.t) (s : string) :
  TaskUpdate.validate u = Some u' -> TaskUpdate.title u = Some s -> s <> EmptyString.
Proof.
  unfold TaskUpdate.validate. intros V T. rewrite T in V.
  destruct (String.eqb s EmptyString) eqn:E; [discriminate|].
  now apply String.eqb_neq.
Qed.

Lemma Inv_created (rows : list Task.t) (d : TaskCreate.t) :
  TaskCreate.title d <> EmptyString -> Inv rows -> Inv (rows ++ [created rows d]).
Proof.
  intros Ht [Hnd Hall]. split.
  - unfold ids. rewrite map_app. cbn [map created Task.id].
    apply NoDup_app; repeat split.
    + exact Hnd.
    + repeat constructor. intros [].
    + intros x Hx [<-|[]]. now apply (next_id_fresh rows).
  - apply Forall_app. split; [exact Hall|]. now repeat constructor.
Qed.

Lemma Inv_updated (i : Z) (u u' : TaskUpdate.t) (r : Task.t) (rows : list Task.t) :
  TaskUpdate.validate u = Some u' -> In r rows -> Inv rows ->
  Inv (updated i u r rows).
Proof.
  intros V Hin [Hnd Hall]. split.
  - now rewrite ids_updated.
  - unfold updated. destruct (TaskUpdate.dict_exclude_unset u); [exact Hall|].
    unfold update_row. rewrite Forall_forall in *. intros x Hx.
    apply in_map_iff in Hx. destruct Hx as [y [<- Hy]].
    destruct (Task.eqb_id i y); [|now apply Hall].
    cbn. destruct (TaskUpdate.title u) as [s|] eqn:T.
    + exact (validate_update_title _ _ _ V T).
    + now apply Hall.
Qed.

Lemma Inv_delete_row (i : Z) (rows : list Task.t) :
  Inv rows -> Inv (delete_row i rows).
Proof.
  intros [Hnd Hall]. split.
  - clear Hall. unfold ids, delete_row in *.
    induction rows as [|x rows IH]; simpl; [constructor|].
    inversion Hnd as [|? ? Hx Hnd']; subst.
    destruct (negb (Task.eqb_id i x)); simpl.
    + constructor; [|now apply IH].
      intros Hin. apply Hx. apply in_map_iff in Hin.
      destruct Hin as [y [Hy Hin]]. apply filter_In in Hin.
      apply in_map_iff. exists y. tauto.
    + now apply IH.
  - unfold delete_row. rewrite Forall_forall in *. intros x Hx.
    apply filter_In in Hx. now apply Hall.
Qed.

(** Whatever the request and whatever the storage calls that raise, a
    request leaves a table with unique ids and non-empty titles so. *)
Lemma serve_Inv (req : request) (faults : nat -> bool) (rows : list Task.t) :
  Inv rows -> Inv (snd (serve req faults rows)).
Proof.
  intros HI. destruct req as [|i|b|i u|i].
  - now rewrite serve_GET_tasks.
  - now rewrite serve_GET_task.
  - rewrite serve_POST_tasks.
    destruct (TaskCreate.validate b) as [d|] eqn:V; [|exact HI].
    pose proof (Inv_created rows d (validate_create_title _ _ V) HI).
    destruct (faults 0%nat), (faults 1%nat), (faults 2%nat), (faults 3%nat);
      assumption.
  - rewrite serve_PUT_task.
    destruct (TaskUpdate.validate u) as [u'|] eqn:V; [|exact HI].
    destruct (faults 0%nat); [exact HI|].
    destruct (find (Task.eqb_id i) rows) as [r|] eqn:F; [|exact HI].
    destruct (find_id_Some _ _ _ F) as [Hin _].
    pose proof (Inv_updated i u u' r rows V Hin HI).
    destruct (faults 1%nat), (faults 2%nat), (faults 3%nat), (faults 4%nat);
      assumption.
  - rewrite serve_DELETE_task.
    destruct (faults 0%nat); [exact HI|].
    destruct (find (Task.eqb_id i) rows) as [r|]; [|exact HI].
    pose proof (Inv_delete_row i rows HI).
    destruct (faults 1%nat), (faults 2%nat), (faults 3%nat); assumption.
Qed.

Lemma serve_all_Inv (reqs : list (request * (nat -> bool))) (rows : list Task.t) :
  Inv rows -> Inv (snd (serve_all reqs rows)).
Proof.
  revert rows. induction reqs as [|[req faults] reqs IH]; intros rows HI.
  - exact HI.
  - cbn [serve_all].
    pose proof (serve_Inv req faults rows HI) as H1.
    destruct (serve req faults rows) as [resp rows1]. cbn [snd] in H1.
    specialize (IH rows1 H1).
    destruct (serve_all reqs rows1) as [resps rows2]. exact IH.
Qed.

(** *** Responses and rows *)

Lemma find_id_app_other (j : Z) (rows : list Task.t) (x : Task.t) :
  Task.id x <> j ->
  find (Task.eqb_id j) (rows ++ [x]) = find (Task.eqb_id j) rows.
Proof.
  intros Hne. induction rows as [|y rows IH]; simpl.
  - now rewrite (proj2 (eqb_id_false _ _) Hne).
  - destruct (Task.eqb_id j y); [reflexivity | exact IH].
Qed.

Lemma serve_record (req : request) (rows : list Task.t) (j : Z) :
  let (resp, rows') := serve req no_faults rows in
  find (Task.eqb_id j) rows' = record j (req, resp) (find (Task.eqb_id j) rows).
Proof.
  destruct req as [|i|b|i u|i].
  - rewrite serve_GET_tasks. reflexivity.
  - rewrite serve_GET_task. reflexivity.
  - rewrite serve_POST_tasks.
    destruct (TaskCreate.validate b) as [d|]; [|reflexivity].
    cbn [no_faults record created Task.id].
    destruct (next_id rows =? j) eqn:E.
    + apply Z.eqb_eq in E. subst j.
      rewrite find_id_app_fresh by apply next_id_fresh.
      unfold Task.eqb_id. cbn. now rewrite Z.eqb_refl.
    + apply Z.eqb_neq in E. now apply find_id_app_other.
  - rewrite serve_PUT_task.
    destruct (TaskUpdate.validate u) as [u'|]; [|reflexivity].
    cbn [no_faults].
    destruct (find (Task.eqb_id i) rows) as [r|] eqn:F; [|reflexivity].
    cbn [record patched Task.id].
    destruct (find_id_Some _ _ _ F) as [_ Hid]. rewrite Hid.
    destruct (i =? j) eqn:E.
    + apply Z.eqb_eq in E. subst j. now apply find_updated_same.
    + apply Z.eqb_neq in E. apply find_updated_other. congruence.
  - rewrite serve_DELETE_task. cbn [no_faults].
    destruct (find (Task.eqb_id i) rows) as [r|] eqn:F; [|reflexivity].
    cbn [record].
    destruct (i =? j) eqn:E.
    + apply Z.eqb_eq in E. subst j. apply find_delete_row_same.
    + apply Z.eqb_neq in E. apply find_delete_row_other. congruence.
Qed.

Lemma serve_all_last_written (reqs : list request) (rows : list Task.t) (j : Z) :
  let (resps, rows') := serve_all (fault_free reqs) rows in
  List.length resps = List.length reqs /\
  find (Task.eqb_id j) rows' =
  last_written j (combine reqs resps) (find (Task.eqb_id j) rows).
Proof.
  revert rows. induction reqs as [|req reqs IH]; intros rows.
  - cbn. auto.
  - cbn [fault_free map serve_all].
    pose proof (serve_record req rows j) as H1.
    destruct (serve req no_faults rows) as [resp rows1].
    specialize (IH rows1). fold (fault_free reqs).
    destruct (serve_all (fault_free reqs) rows1) as [resps rows2].
    destruct IH as [Hlen IH]. cbn [combine last_written List.length].
    split; [now rewrite Hlen|]. now rewrite IH, H1.
Qed.

(** *** Tactics for a unit that fails *)




(* ================================================================== *)
(** ** The properties of the specification *)
(* ================================================================== *)

(** The end-to-end scenario of the specification: create, partial update,
    get of an id that does not exist, delete, get after delete. *)
Example end_to_end :
  serve_all
    (fault_free
       [POST_tasks buy_milk; PUT_task 1 only_completed; GET_task 2;
        DELETE_task 1; GET_task 1]) [] =
  ([Success 201 (task_json (Task.mk 1 "Buy milk" None false));
    Success 200 (task_json (Task.mk 1 "Buy milk" None true));
    Failure 404 "Task with id 2 not found";
    Success 204 no_content;
    Failure 404 "Task with id 1 not found"], []).
Proof. reflexivity. Qed.

(** C1: for an existing task [i] (row [r] of a table with unique ids) and
    an update request that passes validation, [update_task] answers 200
    with a record [r'] that has the id of the task, carries the value of the
    request for every field the request sets and the value of [r] for every
    field it does not set; in particular a request that sets neither title
    nor description leaves both as they were.  The table afterwards holds
    [r'] in place of [r] and every other row unchanged. *)
Theorem update_task_merge_patch (i : Z) (u : TaskUpdate.t) (rows : list Task.t)
  (r : Task.t)
  (Hvalid : TaskUpdate.validate u = Some u)
  (Hunique : NoDup (ids rows)) (Hin : In r rows) (Hid : Task.id r = i) :
  exists r' rows',
    serve (PUT_task i u) no_faults rows = (Success 200 (task_json r'), rows') /\
    Task.id r' = i /\
    Task.title r' =
      match TaskUpdate.title u with Some v => v | None => Task.title r end /\
    Task.description r' =
      match TaskUpdate.description u with
      | Some v => v
      | None => Task.description r
      end /\
    Task.completed r' =
      match TaskUpdate.completed u with Some v => v | None => Task.completed r end /\
    (TaskUpdate.title u = None -> TaskUpdate.description u = None ->
     Task.title r' = Task.title r /\ Task.description r' = Task.description r) /\
    (forall x, In x rows' <-> x = r' \/ (In x rows /\ Task.id x <> i)) /\
    ids rows' = ids rows.
Proof.
  subst i. rewrite serve_PUT_task, Hvalid. cbn [no_faults].
  rewrite (find_id_unique rows r Hunique Hin).
  exists (patched u r), (updated (Task.id r) u r rows).
  split; [reflexivity|].
  cbn [patched Task.id Task.title Task.description Task.completed].
  do 4 (split; [reflexivity|]).
  split; [intros -> ->; split; reflexivity|].
  split; [now apply In_updated | apply ids_updated].
Qed.

Lemma update_task_merge_patch_witness :
  exists r' rows',
    serve (PUT_task 1 only_completed) no_faults [milk; eggs] =
    (Success 200 (task_json r'), rows') /\
    Task.title r' = "Buy milk"%string /\ Task.description r' = None /\
    Task.completed r' = true.
Proof.
  assert (Hunique : NoDup (ids [milk; eggs])).
  { repeat constructor; simpl; intuition discriminate. }
  assert (Hin : In milk [milk; eggs]) by (simpl; tauto).
  destruct (update_task_merge_patch 1 only_completed [milk; eggs] milk
              eq_refl Hunique Hin eq_refl)
    as (r' & rows' & Hs & _ & Ht & Hd & Hc & _).
  exists r', rows'. repeat split; assumption.
Defined.

(** C2: a create request whose title is missing or empty does not validate:
    no handler is run for it (so no session is opened and no storage call
    is made), the response is the validation error whatever the storage
    would have done, and the table is the one before the request. *)
Theorem create_task_rejects_missing_title (b : TaskCreate.body)
  (faults : nat -> bool) (rows : list Task.t)
  (Htitle : TaskCreate.body_title b = None \/
            TaskCreate.body_title b = Some EmptyString) :
  endpoint (POST_tasks b) = None /\
  serve (POST_tasks b) faults rows = (ValidationError, rows).
Proof.
  assert (V : TaskCreate.validate b = None).
  { unfold TaskCreate.validate. destruct Htitle as [-> | ->]; reflexivity. }
  unfold serve, endpoint. rewrite V. split; reflexivity.
Qed.

Lemma create_task_rejects_missing_title_witness :
  serve (POST_tasks (TaskCreate.mk_body (Some EmptyString) (Some "x"%string) None))
    no_faults [milk] = (ValidationError, [milk]) /\
  serve (POST_tasks (TaskCreate.mk_body None None (Some true))) no_faults [milk] =
  (ValidationError, [milk]).
Proof.
  split.
  - apply (create_task_rejects_missing_title
             (TaskCreate.mk_body (Some EmptyString) (Some "x"%string) None)
             no_faults [milk]).
    right; reflexivity.
  - apply (create_task_rejects_missing_title
             (TaskCreate.mk_body None None (Some true)) no_faults [milk]).
    left; reflexivity.
Defined.

(** C3: starting from a table with unique ids and non-empty titles, after
    any sequence of requests (create, update, delete, and reads), whichever
    storage calls raise on the way, the ids of the persisted tasks are
    pairwise distinct and every persisted task has a non-empty title. *)
Theorem persisted_tasks_unique_id_nonempty_title
  (reqs : list (request * (nat -> bool))) (rows : list Task.t)
  (Hids : NoDup (ids rows))
  (Htitles : forall t, In t rows -> Task.title t <> EmptyString) :
  let rows' := snd (serve_all reqs rows) in
  NoDup (ids rows') /\
  (forall t1 t2, In t1 rows' -> In t2 rows' -> t1 <> t2 ->
                 Task.id t1 <> Task.id t2) /\
  (forall t, In t rows' -> Task.title t <> EmptyString).
Proof.
  assert (HI : Inv rows) by (split; [exact Hids | now apply Forall_forall]).
  destruct (serve_all_Inv reqs rows HI) as [Hnd Hall].
  cbn zeta. split; [exact Hnd|]. split.
  - intros t1 t2 H1 H2 Hne Heq. apply Hne. now apply (In_unique_id _ _ _ Hnd).
  - now apply Forall_forall.
Qed.

Lemma persisted_tasks_unique_id_nonempty_title_witness :
  let rows' :=
    snd (serve_all
           [(POST_tasks buy_milk, no_faults);
            (PUT_task 2 (TaskUpdate.mk (Some EmptyString) None None), no_faults);
            (PUT_task 2 (TaskUpdate.mk (Some "Buy bread"%string) None None),
             refresh_raises);
            (DELETE_task 1, no_faults);
            (POST_tasks buy_milk, refresh_raises)]
           [milk; eggs]) in
  NoDup (ids rows') /\
  (forall t, In t rows' -> Task.title t <> EmptyString).
Proof.
  assert (Hids : NoDup (ids [milk; eggs])).
  { repeat constructor; simpl; intuition discriminate. }
  assert (Htitles : forall t, In t [milk; eggs] -> Task.title t <> EmptyString).
  { intros t [<-|[<-|[]]]; discriminate. }
  intros rows'.
  destruct (persisted_tasks_unique_id_nonempty_title
              [(POST_tasks buy_milk, no_faults);
               (PUT_task 2 (TaskUpdate.mk (Some EmptyString) None None), no_faults);
               (PUT_task 2 (TaskUpdate.mk (Some "Buy bread"%string) None None),
                refresh_raises);
               (DELETE_task 1, no_faults);
               (POST_tasks buy_milk, refresh_raises)]
              [milk; eggs] Hids Htitles) as (H1 & _ & H3).
  split; assumption.
Defined.

(** C4: when the storage query does not raise, [get_task] answers 200 with
    the persisted task whose id is [i] when there is one, and 404 (not
    found) when no persisted task has id [i]; the table is not changed. *)
Theorem get_task_found_or_not_found (faults : nat -> bool) (i : Z)
  (rows : list Task.t) (Hquery : faults 0%nat = false) :
  (forall r, NoDup (ids rows) -> In r rows -> Task.id r = i ->
     serve (GET_task i) faults rows = (Success 200 (task_json r), rows)) /\
  (In i (ids rows) ->
     exists r, In r rows /\ Task.id r = i /\
       serve (GET_task i) faults rows = (Success 200 (task_json r), rows)) /\
  (~ In i (ids rows) ->
     serve (GET_task i) faults rows =
     (Failure 404 (not_found_detail i), rows)).
Proof.
  rewrite serve_GET_task, Hquery. split; [|split].
  - intros r Hnd Hin <-. now rewrite (find_id_unique rows r Hnd Hin).
  - intros Hin. destruct (find_id_In _ _ Hin) as [r Hr]. exists r.
    destruct (find_id_Some _ _ _ Hr) as [Hr1 Hr2]. now rewrite Hr.
  - intros Hnin. apply find_id_None in Hnin. now rewrite Hnin.
Qed.

Lemma get_task_found_or_not_found_witness :
  serve (GET_task 2) no_faults [milk; eggs] =
  (Success 200 (task_json eggs), [milk; eggs]) /\
  serve (GET_task 3) no_faults [milk; eggs] =
  (Failure 404 "Task with id 3 not found", [milk; eggs]).
Proof.
  destruct (get_task_found_or_not_found no_faults 2 [milk; eggs] eq_refl)
    as [H _].
  destruct (get_task_found_or_not_found no_faults 3 [milk; eggs] eq_refl)
    as [_ [_ H3]].
  split.
  - apply H.
    + repeat constructor; simpl; intuition discriminate.
    + simpl. tauto.
    + reflexivity.
  - apply H3. simpl. intuition discriminate.
Defined.

(** C5: with a storage that does not raise, deleting task [i] when it
    exists answers 204 and leaves the rows of the table whose id is not [i],
    in their order (with unique ids: one row less), so that a get of [i]
    afterwards is answered 404; deleting when no persisted task has id [i]
    is answered 404, not success, and the table is the one before. *)
Theorem delete_task_removes_or_not_found (i : Z) (rows : list Task.t) :
  (In i (ids rows) ->
     exists rows',
       serve (DELETE_task i) no_faults rows = (Success 204 no_content, rows') /\
       rows' = filter (fun x => negb (Task.id x =? i)) rows /\
       (forall x, In x rows' <-> In x rows /\ Task.id x <> i) /\
       (NoDup (ids rows) -> List.length rows = S (List.length rows')) /\
       serve (GET_task i) no_faults rows' =
       (Failure 404 (not_found_detail i), rows')) /\
  (~ In i (ids rows) ->
     serve (DELETE_task i) no_faults rows =
     (Failure 404 (not_found_detail i), rows)).
Proof.
  rewrite serve_DELETE_task. cbn [no_faults]. split.
  - intros Hin. destruct (find_id_In _ _ Hin) as [r ->].
    exists (delete_row i rows). split; [reflexivity|].
    split; [reflexivity|].
    split; [apply In_delete_row|].
    split; [intros Hnd; now apply length_delete_row_unique|].
    rewrite serve_GET_task. cbn [no_faults].
    now rewrite find_delete_row_same.
  - intros Hnin. apply find_id_None in Hnin. now rewrite Hnin.
Qed.

Lemma delete_task_removes_or_not_found_witness :
  (exists rows',
     serve (DELETE_task 1) no_faults [milk; eggs] = (Success 204 no_content, rows') /\
     rows' = [eggs] /\
     serve (GET_task 1) no_faults rows' =
     (Failure 404 "Task with id 1 not found", rows')) /\
  serve (DELETE_task 3) no_faults [milk; eggs] =
  (Failure 404 "Task with id 3 not found", [milk; eggs]).
Proof.
  destruct (delete_task_removes_or_not_found 1 [milk; eggs]) as [H1 _].
  destruct (delete_task_removes_or_not_found 3 [milk; eggs]) as [_ H3].
  split.
  - destruct H1 as (rows' & Hs & Hr & _ & _ & Hg); [simpl; tauto|].
    exists rows'. repeat split; assumption.
  - apply H3. simpl. intuition discriminate.
Defined.

(** C6: the code departs from the claim.  When [db.refresh] raises after
    [db.commit()] has succeeded, [create_task] goes into its [except]
    branch, calls [db.rollback()] and answers 500 with "Failed to create
    task", and the row it inserted is persisted: the persisted state after
    the failed operation is not the persisted state before it.
    [update_task] does the same with its update. *)
Lemma failed_create_after_commit_is_persisted :
  exists s,
    mutate (Create (TaskCreate.mk "Buy milk" None false)) refresh_raises
      (SessionLocal []) =
    (Raise (HTTPException 500 "Failed to create task"), s) /\
    log s = [ADD; FLUSH; COMMIT; REFRESH; ROLLBACK] /\
    close s = [milk] /\
    close s <> [] /\
    serve (POST_tasks buy_milk) refresh_raises [] =
    (Failure 500 "Failed to create task", [milk]) /\
    serve (PUT_task 1 only_completed) (fun k => Nat.eqb k 4) [milk] =
    (Failure 500 "Failed to update task", [Task.mk 1 "Buy milk" None true]).
Proof.
  eexists. split; [reflexivity|]. cbn.
  repeat split. discriminate.
Qed.

(** C7: with a storage that does not raise, a create request with a
    non-empty title is answered 201 with a record [t]; the table afterwards
    is the table before followed by the one row [t]; the id of [t] is the
    one storage assigns, which no row of the table had; [t] has the title
    and description of the request, the completed flag of the request when
    it gives one, and [false] when it gives none. *)
Theorem create_task_inserts_one_row (b : TaskCreate.body) (title : string)
  (rows : list Task.t)
  (Htitle : TaskCreate.body_title b = Some title) (Hne : title <> EmptyString) :
  exists t,
    serve (POST_tasks b) no_faults rows = (Success 201 (task_json t), rows ++ [t]) /\
    Task.id t = next_id rows /\
    ~ In (Task.id t) (ids rows) /\
    Task.title t = title /\
    Task.description t = TaskCreate.body_description b /\
    (TaskCreate.body_completed b = None -> Task.completed t = false) /\
    (forall c, TaskCreate.body_completed b = Some c -> Task.completed t = c).
Proof.
  rewrite serve_POST_tasks. unfold TaskCreate.validate. rewrite Htitle.
  apply String.eqb_neq in Hne. rewrite Hne. cbn [no_faults].
  eexists. split; [reflexivity|]. unfold created; cbn.
  split; [reflexivity|]. split; [apply next_id_fresh|].
  split; [reflexivity|]. split; [reflexivity|].
  split; [now intros -> | now intros c ->].
Qed.

Lemma create_task_inserts_one_row_witness :
  exists t,
    serve (POST_tasks buy_milk) no_faults [eggs] =
    (Success 201 (task_json t), [eggs] ++ [t]) /\
    Task.id t = 3 /\ Task.title t = "Buy milk"%string /\ Task.completed t = false.
Proof.
  destruct (create_task_inserts_one_row buy_milk "Buy milk" [eggs] eq_refl)
    as (t & Hs & Hid & _ & Ht & _ & Hc & _).
  - discriminate.
  - exists t. repeat split; try assumption. now apply Hc.
Defined.

(** C8: after any sequence of requests served by a storage that does not
    raise, starting from the empty table, [get_tasks] answers 200 with a
    list without repeated ids in which a record [t] occurs exactly when [t]
    is what the history of responses says was last written to the task with
    the id of [t]: the task was created, was not deleted since, and [t] is
    the record returned by the last create or update of it. *)
Theorem get_tasks_lists_live_tasks (reqs : list request) :
  let (resps, rows) := serve_all (fault_free reqs) [] in
  let history := combine reqs resps in
  exists tasks,
    serve GET_tasks no_faults rows = (Success 200 (tasks_json tasks), rows) /\
    NoDup (ids tasks) /\
    (forall t, In t tasks <-> last_written (Task.id t) history None = Some t).
Proof.
  pose proof (serve_all_Inv (fault_free reqs) [] (conj (NoDup_nil _) (Forall_nil _)))
    as [Hnd _].
  pose proof (fun j => serve_all_last_written reqs [] j) as H.
  destruct (serve_all (fault_free reqs) []) as [resps rows].
  cbn [snd] in Hnd. cbn zeta. exists rows.
  rewrite serve_GET_tasks. cbn [no_faults].
  split; [reflexivity|]. split; [exact Hnd|].
  intros t. destruct (H (Task.id t)) as [_ Ht]. cbn [find] in Ht.
  rewrite <- Ht. split.
  - now apply find_id_unique.
  - intros F. now apply find_id_Some in F.
Qed.

(** C9: for an existing task [i] and an update request that passes
    validation, with a storage that does not raise, the update applied a
    second time answers with the same record as the first time and leaves
    the table the first one left. *)
Theorem update_task_idempotent (i : Z) (u : TaskUpdate.t) (rows : list Task.t)
  (Hvalid : TaskUpdate.validate u = Some u) (Hin : In i (ids rows)) :
  exists r rows1,
    serve (PUT_task i u) no_faults rows = (Success 200 (task_json r), rows1) /\
    serve (PUT_task i u) no_faults rows1 = (Success 200 (task_json r), rows1).
Proof.
  destruct (find_id_In _ _ Hin) as [r F].
  exists (patched u r), (updated i u r rows).
  rewrite !serve_PUT_task, Hvalid. cbn [no_faults].
  rewrite F, (find_updated_same _ _ _ _ F), patched_idempotent, updated_idempotent.
  split; reflexivity.
Qed.

Lemma update_task_idempotent_witness :
  exists r rows1,
    serve (PUT_task 2 (TaskUpdate.mk (Some "Buy bread"%string) (Some None) None))
      no_faults [milk; eggs] = (Success 200 (task_json r), rows1) /\
    serve (PUT_task 2 (TaskUpdate.mk (Some "Buy bread"%string) (Some None) None))
      no_faults rows1 = (Success 200 (task_json r), rows1).
Proof.
  apply (update_task_idempotent 2
           (TaskUpdate.mk (Some "Buy bread"%string) (Some None) None) [milk; eggs]).
  - reflexivity.
  - simpl. tauto.
Defined.

(** C10: whatever the table, the id asked for and the storage calls that
    raise, [get_tasks] and [get_task] leave the table as it was, and their
    session ends with no open transaction and nothing pending; this holds
    for the 200, the 404 and the 500 answers alike. *)
Theorem reads_leave_storage_unchanged (faults : nat -> bool) (i : Z)
  (rows : list Task.t) :
  snd (serve GET_tasks faults rows) = rows /\
  snd (serve (GET_task i) faults rows) = rows /\
  (let s := snd (get_tasks faults (SessionLocal rows)) in
   table s = rows /\ clean s) /\
  (let s := snd (get_task i faults (SessionLocal rows)) in
   table s = rows /\ clean s).
Proof.
  rewrite serve_GET_tasks, serve_GET_task.
  split; [reflexivity|]. split; [reflexivity|].
  unfold clean. split.
  - unfold_m. destruct (faults 0%nat); cbn; auto.
  - unfold_m. destruct (faults 0%nat);
      [|destruct (find (Task.eqb_id i) rows)]; cbn; auto.
Qed.

(* ================================================================== *)
(** ** Further properties of the handlers and of the configuration *)
(* ================================================================== *)

(** *** Two updates in a row *)

Lemma patched_then (u1 u2 : TaskUpdate.t) (r : Task.t) :
  patched u2 (patched u1 r) = patched (then_update u1 u2) r.
Proof.
  unfold patched, then_update. cbn.
  destruct (TaskUpdate.title u2), (TaskUpdate.description u2),
    (TaskUpdate.completed u2); reflexivity.
Qed.

Lemma update_row_twice (i : Z) (o1 o2 : TaskModel.t) (rows : list Task.t) :
  update_row i o2 (update_row i o1 rows) = update_row i o2 rows.
Proof.
  unfold update_row. rewrite map_map. apply map_ext. intros x.
  destruct (Task.eqb_id i x) eqn:E.
  - unfold Task.eqb_id. cbn. now rewrite Z.eqb_refl.
  - now rewrite E.
Qed.

Lemma updated_then (i : Z) (u1 u2 : TaskUpdate.t) (r : Task.t)
  (rows : list Task.t) :
  updated i u2 (patched u1 r) (updated i u1 r rows) =
  updated i (then_update u1 u2) r rows.
Proof.
  unfold updated. rewrite patched_then.
  destruct u1 as [[t1|] [d1|] [c1|]], u2 as [[t2|] [d2|] [c2|]];
    cbn [TaskUpdate.dict_exclude_unset TaskUpdate.opt_item then_update app
         TaskUpdate.title TaskUpdate.description TaskUpdate.completed];
    try reflexivity; try apply update_row_twice.
  all: unfold patched; cbn; now destruct r.
Qed.

Lemma validate_then (u1 u2 : TaskUpdate.t) :
  TaskUpdate.validate u1 = Some u1 -> TaskUpdate.validate u2 = Some u2 ->
  TaskUpdate.validate (then_update u1 u2) = Some (then_update u1 u2).
Proof.
  unfold TaskUpdate.validate, then_update. cbn.
  destruct (TaskUpdate.title u2) as [t2|].
  - destruct (String.eqb t2 EmptyString); [discriminate | reflexivity].
  - intros H _. destruct (TaskUpdate.title u1) as [t1|]; [|reflexivity].
    destruct (String.eqb t1 EmptyString); [discriminate | reflexivity].
Qed.

(** *** Occurrence of a text in a text *)

Lemma prefix_app (needle haystack : string) :
  String.prefix needle haystack = true <->
  exists post, haystack = (needle ++ post)%string.
Proof.
  revert haystack. induction needle as [|a needle IH]; intros haystack.
  - split; [intros _; now exists haystack | intros _; now destruct haystack].
  - destruct haystack as [|b haystack]; simpl.
    + split; [discriminate | intros [post H]; discriminate].
    + destruct (Ascii.ascii_dec a b) as [->|Hne].
      * rewrite IH. split; intros [post H]; exists post.
        -- now rewrite H.
        -- now inversion H.
      * split; [discriminate | intros [post H]; inversion H; congruence].
Qed.

Lemma contains_unfold (needle haystack : string) :
  Config.contains needle haystack =
  if String.prefix needle haystack then true
  else match haystack with
       | EmptyString => false
       | String _ rest => Config.contains needle rest
       end.
Proof. destruct haystack; reflexivity. Qed.

Lemma contains_app (needle haystack : string) :
  Config.contains needle haystack = true <->
  exists pre post, haystack = (pre ++ needle ++ post)%string.
Proof.
  induction haystack as [|b haystack IH]; rewrite contains_unfold.
  - destruct (String.prefix needle EmptyString) eqn:P.
    + apply prefix_app in P. destruct P as [post P].
      split; [intros _; now exists EmptyString, post | reflexivity].
    + split; [discriminate|]. intros (pre & post & H).
      destruct pre; simpl in H.
      * assert (String.prefix needle EmptyString = true)
          by (apply prefix_app; now exists post).
        congruence.
      * discriminate.
  - destruct (String.prefix needle (String b haystack)) eqn:P.
    + apply prefix_app in P. destruct P as [post P].
      split; [intros _; now exists EmptyString, post | reflexivity].
    + rewrite IH. split.
      * intros (pre & post & H). exists (String b pre), post. simpl. now rewrite H.
      * intros (pre & post & H). destruct pre as [|c pre]; simpl in H.
        -- assert (String.prefix needle (String b haystack) = true)
             by (apply prefix_app; now exists post).
           congruence.
        -- inversion H. now exists pre, post.
Qed.

(** *** Failures *)

(** X1: whatever the request and whatever the storage calls that raise,
    an answer that is not a success is one of four: the rejection of a
    body that does not validate, given without running a handler and with
    the table unchanged; a 404 for the id in the path, given only when no
    persisted task has that id, with the table unchanged; a 500 whose
    detail is the fixed sentence of the handler, given only when a storage
    call raised; or the plain 500 of the framework, given only by a writing
    request when a storage call raised and the call that follows it (the
    rollback of the [except] branch) raised as well.  Nothing of an
    exception reaches the caller, and a storage that does not raise never
    yields a 500. *)
Theorem non_success_answers (req : request) (faults : nat -> bool)
  (rows : list Task.t) :
  let (resp, rows') := serve req faults rows in
  (exists code body, resp = Success code body) \/
  (resp = ValidationError /\ endpoint req = None /\ rows' = rows) \/
  (exists i, resp = Failure 404 (not_found_detail i) /\
             addressed req = Some i /\ ~ In i (ids rows) /\ rows' = rows) \/
  (resp = Failure 500 (generic_detail req) /\ exists k, faults k = true) \/
  (resp = Failure 500 "Internal Server Error" /\ writes req = true /\
   exists k, faults k = true /\ faults (S k) = true).
Proof.
  destruct req as [|i|b|i u|i].
  - rewrite serve_GET_tasks. destruct (faults 0%nat) eqn:F0.
    + do 3 right. left. eauto.
    + left. eauto.
  - rewrite serve_GET_task. destruct (faults 0%nat) eqn:F0.
    + do 3 right. left. eauto.
    + destruct (find (Task.eqb_id i) rows) eqn:F.
      * left. eauto.
      * do 2 right. left. exists i. repeat split. now apply find_id_None.
  - rewrite serve_POST_tasks. unfold endpoint, after_rollback.
    destruct (TaskCreate.validate b); [|right; left; auto].
    destruct (faults 0%nat) eqn:F0, (faults 1%nat) eqn:F1, (faults 2%nat) eqn:F2,
      (faults 3%nat) eqn:F3, (faults 4%nat) eqn:F4;
      first [ left; eauto; fail
            | do 3 right; left; split; [reflexivity | eauto]; fail
            | do 4 right; split; [reflexivity | split; [reflexivity | eauto]] ].
  - rewrite serve_PUT_task. unfold endpoint, after_rollback.
    destruct (TaskUpdate.validate u); [|right; left; auto].
    destruct (faults 0%nat) eqn:F0.
    + destruct (faults 1%nat) eqn:F1.
      * do 4 right. split; [reflexivity | split; [reflexivity | eauto]].
      * do 3 right. left. eauto.
    + destruct (find (Task.eqb_id i) rows) eqn:F.
      * destruct (faults 1%nat) eqn:F1, (faults 2%nat) eqn:F2,
          (faults 3%nat) eqn:F3, (faults 4%nat) eqn:F4, (faults 5%nat) eqn:F5;
          first [ left; eauto; fail
                | do 3 right; left; split; [reflexivity | eauto]; fail
                | do 4 right; split; [reflexivity | split; [reflexivity | eauto]] ].
      * do 2 right. left. exists i. repeat split. now apply find_id_None.
  - rewrite serve_DELETE_task. unfold after_rollback.
    destruct (faults 0%nat) eqn:F0.
    + destruct (faults 1%nat) eqn:F1.
      * do 4 right. split; [reflexivity | split; [reflexivity | eauto]].
      * do 3 right. left. eauto.
    + destruct (find (Task.eqb_id i) rows) eqn:F.
      * destruct (faults 1%nat) eqn:F1, (faults 2%nat) eqn:F2,
          (faults 3%nat) eqn:F3, (faults 4%nat) eqn:F4;
          first [ left; eauto; fail
                | do 3 right; left; split; [reflexivity | eauto]; fail
                | do 4 right; split; [reflexivity | split; [reflexivity | eauto]] ].
      * do 2 right. left. exists i. repeat split. now apply find_id_None.
Qed.

(** X2: when the query of [update_task] or [delete_task] does not raise and
    finds no task with the id, the handler raises the 404 with the QUERY as
    its only storage call: nothing is added, deleted, flushed, committed or
    rolled back, no instance is loaded, and the table is untouched, whatever
    later storage calls would have done. *)
Theorem not_found_before_any_mutation (i : Z) (u : TaskUpdate.t)
  (faults : nat -> bool) (rows : list Task.t)
  (Hquery : faults 0%nat = false) (Hmissing : ~ In i (ids rows)) :
  update_task i u faults (SessionLocal rows) =
  (Raise (HTTPException 404 (not_found_detail i)),
   mkSession rows None [] [] [] [] [QUERY]) /\
  delete_task i faults (SessionLocal rows) =
  (Raise (HTTPException 404 (not_found_detail i)),
   mkSession rows None [] [] [] [] [QUERY]).
Proof.
  apply find_id_None in Hmissing.
  split; unfold_m; rewrite Hquery, Hmissing; reflexivity.
Qed.

Lemma not_found_before_any_mutation_witness :
  delete_task 3 (fun k => Nat.eqb k 1) (SessionLocal [milk; eggs]) =
  (Raise (HTTPException 404 "Task with id 3 not found"),
   mkSession [milk; eggs] None [] [] [] [] [QUERY]).
Proof.
  apply (not_found_before_any_mutation 3 only_completed (fun k => Nat.eqb k 1)
           [milk; eggs]).
  - reflexivity.
  - simpl. intuition discriminate.
Defined.

(** X3: when [create_task] gets through [db.add] and [db.commit()] and
    [db.refresh] then raises, the answer is a 500 (with the sentence of the
    handler, or the plain 500 of the framework when the rollback that
    follows raises as well) and the new row is in the table all the same:
    it is the one row added, it has the submitted title and an id no row
    had, and a later get of that id returns it. *)
Theorem create_task_refresh_failure (b : TaskCreate.body) (title : string)
  (faults : nat -> bool) (rows : list Task.t)
  (Htitle : TaskCreate.body_title b = Some title) (Hne : title <> EmptyString)
  (Hunit : forall k, (k < 3)%nat -> faults k = false)
  (Hrefresh : faults 3%nat = true) :
  exists t rows',
    serve (POST_tasks b) faults rows =
    (Failure 500
       (if faults 4%nat then "Internal Server Error" else "Failed to create task"),
     rows') /\
    rows' = rows ++ [t] /\
    Task.title t = title /\
    ~ In (Task.id t) (ids rows) /\
    serve (GET_task (Task.id t)) no_faults rows' = (Success 200 (task_json t), rows').
Proof.
  rewrite serve_POST_tasks. unfold TaskCreate.validate. rewrite Htitle.
  apply String.eqb_neq in Hne. rewrite Hne.
  rewrite !Hunit, Hrefresh by lia. unfold after_rollback.
  eexists. eexists. split; [reflexivity|]. split; [reflexivity|].
  unfold created; cbn [Task.id Task.title]. split; [reflexivity|].
  split; [apply next_id_fresh|].
  rewrite serve_GET_task. cbn [no_faults].
  rewrite find_id_app_fresh by apply next_id_fresh.
  unfold Task.eqb_id. cbn [Task.id]. now rewrite Z.eqb_refl.
Qed.

Lemma create_task_refresh_failure_witness :
  exists t rows',
    serve (POST_tasks buy_milk) refresh_raises [eggs] =
    (Failure 500 "Failed to create task", rows') /\
    rows' = [eggs] ++ [t] /\ Task.title t = "Buy milk"%string.
Proof.
  destruct (create_task_refresh_failure buy_milk "Buy milk" refresh_raises [eggs]
              eq_refl)
    as (t & rows' & Hs & Hr & Ht & _).
  - discriminate.
  - intros k Hk. destruct k as [|[|[|k]]]; try reflexivity. lia.
  - reflexivity.
  - exists t, rows'. repeat split; assumption.
Defined.

(** X4: when [update_task] of an existing task gets through the query,
    [db.add] and [db.commit()] and [db.refresh] then raises, the answer is
    a 500 (with the sentence of the handler, or the plain 500 of the
    framework when the rollback that follows raises as well) and the update
    is persisted all the same: a later get of the task returns the record
    with the fields of the request applied. *)
Theorem update_task_refresh_failure (i : Z) (u : TaskUpdate.t)
  (faults : nat -> bool) (rows : list Task.t)
  (Hvalid : TaskUpdate.validate u = Some u) (Hin : In i (ids rows))
  (Hunit : forall k, (k < 4)%nat -> faults k = false)
  (Hrefresh : faults 4%nat = true) :
  exists r r' rows',
    serve (GET_task i) no_faults rows = (Success 200 (task_json r), rows) /\
    serve (PUT_task i u) faults rows =
    (Failure 500
       (if faults 5%nat then "Internal Server Error" else "Failed to update task"),
     rows') /\
    serve (GET_task i) no_faults rows' = (Success 200 (task_json r'), rows') /\
    Task.id r' = i /\
    Task.title r' =
      match TaskUpdate.title u with Some v => v | None => Task.title r end /\
    Task.description r' =
      match TaskUpdate.description u with
      | Some v => v
      | None => Task.description r
      end /\
    Task.completed r' =
      match TaskUpdate.completed u with Some v => v | None => Task.completed r end.
Proof.
  destruct (find_id_In _ _ Hin) as [r F].
  destruct (find_id_Some _ _ _ F) as [_ Hid].
  exists r, (patched u r), (updated i u r rows).
  rewrite serve_PUT_task, !serve_GET_task, Hvalid. cbn [no_faults].
  rewrite !Hunit, Hrefresh, F, (find_updated_same _ _ _ _ F) by lia.
  unfold after_rollback.
  cbn [patched Task.id Task.title Task.description Task.completed].
  repeat split. exact Hid.
Qed.

Lemma update_task_refresh_failure_witness :
  exists r' rows',
    serve (PUT_task 1 only_completed) (fun k => Nat.eqb k 4) [milk; eggs] =
    (Failure 500 "Failed to update task", rows') /\
    serve (GET_task 1) no_faults rows' = (Success 200 (task_json r'), rows') /\
    Task.completed r' = true.
Proof.
  destruct (update_task_refresh_failure 1 only_completed (fun k => Nat.eqb k 4)
              [milk; eggs] eq_refl)
    as (r & r' & rows' & Hg & Hs & Hg' & _ & _ & _ & Hc).
  - simpl. tauto.
  - intros k Hk. destruct k as [|[|[|[|k]]]]; try reflexivity. lia.
  - reflexivity.
  - exists r', rows'. repeat split; assumption.
Defined.

(** X5: [delete_task] ends with its commit, so its answer tells what
    happened to the table, whatever the storage calls that raise: either
    the answer is 204, the task existed, none of the four storage calls
    raised and the table is the old one without the rows of that id; or the
    answer is a failure and the table is unchanged. *)
Theorem delete_task_all_or_nothing (i : Z) (faults : nat -> bool)
  (rows : list Task.t) :
  let (resp, rows') := serve (DELETE_task i) faults rows in
  (resp = Success 204 no_content /\ In i (ids rows) /\
   rows' = filter (fun x => negb (Task.id x =? i)) rows /\
   forall k, (k < 4)%nat -> faults k = false) \/
  ((exists code detail, resp = Failure code detail) /\ rows' = rows).
Proof.
  rewrite serve_DELETE_task. unfold after_rollback.
  destruct (faults 0%nat) eqn:F0; [right; eauto|].
  destruct (find (Task.eqb_id i) rows) as [r|] eqn:F; [|right; eauto].
  destruct (faults 1%nat) eqn:F1; [right; eauto|].
  destruct (faults 2%nat) eqn:F2; [right; eauto|].
  destruct (faults 3%nat) eqn:F3; [right; eauto|].
  left. split; [reflexivity|]. split.
  - destruct (find_id_Some _ _ _ F) as [Hin <-]. unfold ids. now apply in_map.
  - split; [reflexivity|].
    intros k Hk. do 4 (destruct k as [|k]; [assumption|]). lia.
Qed.

(** *** Reading after writing *)

(** X6: whenever a request is answered with a task record (a get, a create
    or an update that succeeded, whatever the faults it survived), a get of
    the id of that record on the resulting table returns that very
    record. *)
Theorem get_task_reads_what_was_returned (req : request) (faults : nat -> bool)
  (rows rows' : list Task.t) (code : Z) (t : Task.t)
  (Hserved : serve req faults rows = (Success code (task_json t), rows')) :
  serve (GET_task (Task.id t)) no_faults rows' = (Success 200 (task_json t), rows').
Proof.
  rewrite serve_GET_task. cbn [no_faults].
  destruct req as [|i|b|i u|i]; revert Hserved.
  - rewrite serve_GET_tasks. destruct (faults 0%nat); intros H; inversion H.
  - rewrite serve_GET_task. destruct (faults 0%nat); [discriminate|].
    destruct (find (Task.eqb_id i) rows) as [r|] eqn:F; intros H; inversion H; subst.
    destruct (find_id_Some _ _ _ F) as [_ <-]. now rewrite F.
  - rewrite serve_POST_tasks. unfold after_rollback.
    destruct (TaskCreate.validate b) as [d|]; [|discriminate].
    destruct (faults 0%nat), (faults 1%nat), (faults 2%nat), (faults 3%nat);
      intros H; inversion H; subst.
    rewrite find_id_app_fresh by apply next_id_fresh.
    unfold Task.eqb_id. cbn [created Task.id]. now rewrite Z.eqb_refl.
  - rewrite serve_PUT_task. unfold after_rollback.
    destruct (TaskUpdate.validate u); [|discriminate].
    destruct (faults 0%nat); [discriminate|].
    destruct (find (Task.eqb_id i) rows) as [r|] eqn:F; [|discriminate].
    destruct (faults 1%nat), (faults 2%nat), (faults 3%nat), (faults 4%nat);
      intros H; inversion H; subst.
    destruct (find_id_Some _ _ _ F) as [_ Hid].
    cbn [patched Task.id]. rewrite Hid.
    now rewrite (find_updated_same _ _ _ _ F).
  - rewrite serve_DELETE_task. unfold after_rollback.
    destruct (faults 0%nat); [discriminate|].
    destruct (find (Task.eqb_id i) rows); [|discriminate].
    destruct (faults 1%nat), (faults 2%nat), (faults 3%nat); discriminate.
Qed.

Lemma get_task_reads_what_was_returned_witness :
  serve (GET_task 1) no_faults [Task.mk 1 "Buy milk" None true; eggs] =
  (Success 200 (task_json (Task.mk 1 "Buy milk" None true)),
   [Task.mk 1 "Buy milk" None true; eggs]).
Proof.
  exact (get_task_reads_what_was_returned (PUT_task 1 only_completed) no_faults
           [milk; eggs] [Task.mk 1 "Buy milk" None true; eggs] 200
           (Task.mk 1 "Buy milk" None true) eq_refl).
Defined.

(** X7: once [delete_task] has answered 204 for an id, no persisted task
    has that id, and a get, an update (with a valid body) or another delete
    of the same id whose query does not raise is answered 404 and leaves
    the table as it is: in particular a delete is not repeated with
    success. *)
Theorem deleted_task_is_gone (i : Z) (faults faults' : nat -> bool)
  (u : TaskUpdate.t) (rows rows' : list Task.t)
  (Hdeleted : serve (DELETE_task i) faults rows = (Success 204 no_content, rows'))
  (Hvalid : TaskUpdate.validate u = Some u)
  (Hquery : faults' 0%nat = false) :
  ~ In i (ids rows') /\
  serve (GET_task i) faults' rows' = (Failure 404 (not_found_detail i), rows') /\
  serve (PUT_task i u) faults' rows' = (Failure 404 (not_found_detail i), rows') /\
  serve (DELETE_task i) faults' rows' = (Failure 404 (not_found_detail i), rows').
Proof.
  assert (rows' = delete_row i rows) as ->.
  { revert Hdeleted. rewrite serve_DELETE_task. unfold after_rollback.
    destruct (faults 0%nat); [discriminate|].
    destruct (find (Task.eqb_id i) rows); [|discriminate].
    destruct (faults 1%nat), (faults 2%nat), (faults 3%nat);
      intros H; inversion H; reflexivity. }
  pose proof (find_delete_row_same i rows) as F.
  rewrite serve_GET_task, serve_PUT_task, serve_DELETE_task, Hvalid, Hquery, F.
  repeat split. now apply find_id_None.
Qed.

Lemma deleted_task_is_gone_witness :
  serve (DELETE_task 1) no_faults [eggs] =
  (Failure 404 "Task with id 1 not found", [eggs]) /\
  serve (PUT_task 1 only_completed) no_faults [eggs] =
  (Failure 404 "Task with id 1 not found", [eggs]).
Proof.
  destruct (deleted_task_is_gone 1 no_faults no_faults only_completed
              [milk; eggs] [eggs] eq_refl eq_refl eq_refl)
    as (_ & _ & Hput & Hdel).
  split; assumption.
Defined.

(** X8: an update whose body sets no field runs the loop over no item: with
    a storage that does not raise it gives the answer of a get of the same
    id (the record as it is, or the same 404) and leaves the table
    unchanged. *)
Theorem update_task_without_fields_reads (i : Z) (rows : list Task.t) :
  serve (PUT_task i no_fields) no_faults rows = serve (GET_task i) no_faults rows.
Proof.
  rewrite serve_PUT_task, serve_GET_task. cbn [no_faults].
  change (TaskUpdate.validate no_fields) with (Some no_fields). cbv iota.
  destruct (find (Task.eqb_id i) rows) as [r|]; [|reflexivity].
  unfold updated. cbn. now destruct r.
Qed.

(** *** What a request leaves alone *)

(** X9: a request writes at most one task.  Whatever the request and the
    storage calls that raise, for every id other than the id in the path
    (for a create: other than the id storage would assign), a get of that
    id gives the same answer after the request as before it. *)
Theorem other_tasks_untouched (req : request) (faults : nat -> bool)
  (rows : list Task.t) (j : Z)
  (Hother : touched req rows <> Some j) :
  let rows' := snd (serve req faults rows) in
  fst (serve (GET_task j) no_faults rows') = fst (serve (GET_task j) no_faults rows).
Proof.
  cbn zeta. rewrite !serve_GET_task. cbn [no_faults fst].
  enough (E : find (Task.eqb_id j) (snd (serve req faults rows)) =
              find (Task.eqb_id j) rows) by now rewrite E.
  destruct req as [|i|b|i u|i]; cbn [touched] in Hother.
  - now rewrite serve_GET_tasks.
  - now rewrite serve_GET_task.
  - rewrite serve_POST_tasks. unfold after_rollback.
    destruct (TaskCreate.validate b) as [d|]; [|reflexivity].
    assert (E : find (Task.eqb_id j) (rows ++ [created rows d]) =
                find (Task.eqb_id j) rows).
    { apply find_id_app_other. cbn. congruence. }
    destruct (faults 0%nat), (faults 1%nat), (faults 2%nat), (faults 3%nat);
      cbn [snd]; auto.
  - rewrite serve_PUT_task. unfold after_rollback.
    destruct (TaskUpdate.validate u); [|reflexivity].
    destruct (faults 0%nat); [reflexivity|].
    destruct (find (Task.eqb_id i) rows) as [r|] eqn:F; [|reflexivity].
    assert (E : find (Task.eqb_id j) (updated i u r rows) =
                find (Task.eqb_id j) rows).
    { apply find_updated_other. congruence. }
    destruct (faults 1%nat), (faults 2%nat), (faults 3%nat), (faults 4%nat);
      cbn [snd]; auto.
  - rewrite serve_DELETE_task. unfold after_rollback.
    destruct (faults 0%nat); [reflexivity|].
    destruct (find (Task.eqb_id i) rows) as [r|] eqn:F; [|reflexivity].
    assert (E : find (Task.eqb_id j) (delete_row i rows) =
                find (Task.eqb_id j) rows).
    { apply find_delete_row_other. congruence. }
    destruct (faults 1%nat), (faults 2%nat), (faults 3%nat); cbn [snd]; auto.
Qed.

Lemma other_tasks_untouched_witness :
  fst (serve (GET_task 2) no_faults (snd (serve (DELETE_task 1) no_faults [milk; eggs]))) =
  fst (serve (GET_task 2) no_faults [milk; eggs]).
Proof.
  apply (other_tasks_untouched (DELETE_task 1) no_faults [milk; eggs] 2).
  discriminate.
Defined.

(** X10: two updates of the same id, one after the other, with valid bodies
    and a storage that does not raise, end with the answer and the table of
    the single update that sets each field to the value of the second body
    when the second sets it and to the value of the first otherwise. *)
Theorem updates_compose (i : Z) (u1 u2 : TaskUpdate.t) (rows : list Task.t)
  (Hvalid1 : TaskUpdate.validate u1 = Some u1)
  (Hvalid2 : TaskUpdate.validate u2 = Some u2) :
  serve (PUT_task i u2) no_faults (snd (serve (PUT_task i u1) no_faults rows)) =
  serve (PUT_task i (then_update u1 u2)) no_faults rows.
Proof.
  rewrite !serve_PUT_task, Hvalid1, Hvalid2, (validate_then _ _ Hvalid1 Hvalid2).
  cbn [no_faults].
  destruct (find (Task.eqb_id i) rows) as [r|] eqn:F; cbn [snd].
  - now rewrite (find_updated_same _ _ _ _ F), patched_then, updated_then.
  - now rewrite F.
Qed.

Lemma updates_compose_witness :
  serve (PUT_task 2 (TaskUpdate.mk (Some "Buy bread"%string) None None)) no_faults
    (snd (serve (PUT_task 2 only_completed) no_faults [milk; eggs])) =
  serve (PUT_task 2 (TaskUpdate.mk (Some "Buy bread"%string) None (Some true)))
    no_faults [milk; eggs].
Proof.
  exact (updates_compose 2 only_completed
           (TaskUpdate.mk (Some "Buy bread"%string) None None) [milk; eggs]
           eq_refl eq_refl).
Defined.

(** *** Successes *)

(** X11: whatever the storage calls that raise, a success answer carries
    the status of its route and speaks of persisted tasks: the list answers
    200 with the whole table in its order; a get answers 200 with a row of
    the table that has the id asked for; a create answers 201 with the one
    row it appended; an update answers 200 with a record of the id asked
    for, which existed; a delete answers 204 without content for an id that
    existed. *)
Theorem success_has_route_status (req : request) (faults : nat -> bool)
  (rows : list Task.t) (code : Z) (body : content)
  (Hok : fst (serve req faults rows) = Success code body) :
  match req with
  | GET_tasks => code = 200 /\ body = tasks_json rows
  | GET_task i =>
      code = 200 /\ exists r, body = task_json r /\ In r rows /\ Task.id r = i
  | POST_tasks _ =>
      code = 201 /\
      exists t, body = task_json t /\ snd (serve req faults rows) = rows ++ [t]
  | PUT_task i _ =>
      code = 200 /\
      exists t, body = task_json t /\ Task.id t = i /\ In i (ids rows)
  | DELETE_task i => code = 204 /\ body = no_content /\ In i (ids rows)
  end.
Proof.
  destruct req as [|i|b|i u|i]; revert Hok.
  - rewrite serve_GET_tasks. destruct (faults 0%nat); intros H; inversion H. auto.
  - rewrite serve_GET_task. destruct (faults 0%nat); [discriminate|].
    destruct (find (Task.eqb_id i) rows) as [r|] eqn:F; intros H; inversion H.
    split; [reflexivity|]. exists r. split; [reflexivity|].
    now apply find_id_Some.
  - rewrite serve_POST_tasks. unfold after_rollback.
    destruct (TaskCreate.validate b) as [d|]; [|discriminate].
    destruct (faults 0%nat), (faults 1%nat), (faults 2%nat), (faults 3%nat);
      intros H; inversion H. eauto.
  - rewrite serve_PUT_task. unfold after_rollback.
    destruct (TaskUpdate.validate u); [|discriminate].
    destruct (faults 0%nat); [discriminate|].
    destruct (find (Task.eqb_id i) rows) as [r|] eqn:F; [|discriminate].
    destruct (find_id_Some _ _ _ F) as [Hin Hid].
    destruct (faults 1%nat), (faults 2%nat), (faults 3%nat), (faults 4%nat);
      intros H; inversion H.
    split; [reflexivity|]. exists (patched u r). repeat split; [exact Hid|].
    rewrite <- Hid. unfold ids. now apply in_map.
  - rewrite serve_DELETE_task. unfold after_rollback.
    destruct (faults 0%nat); [discriminate|].
    destruct (find (Task.eqb_id i) rows) as [r|] eqn:F; [|discriminate].
    destruct (find_id_Some _ _ _ F) as [Hin Hid].
    destruct (faults 1%nat), (faults 2%nat), (faults 3%nat);
      intros H; inversion H.
    repeat split. rewrite <- Hid. unfold ids. now apply in_map.
Qed.

Lemma success_has_route_status_witness :
  exists t,
    snd (serve (POST_tasks buy_milk) no_faults [eggs]) = [eggs] ++ [t] /\
    Task.mk 3 "Buy milk" None false = t.
Proof.
  destruct (success_has_route_status (POST_tasks buy_milk) no_faults [eggs] 201
              (task_json (Task.mk 3 "Buy milk" None false)) eq_refl)
    as [_ (t & Hbody & Hrows)].
  exists t. split; [exact Hrows | now inversion Hbody].
Defined.

(** *** The engine *)

(** X12: the engine is created for the value of [DATABASE_URL] when the
    variable is set, and for [sqlite:///./tasks.db] when it is not; it is
    given [check_same_thread = False] exactly when the text [sqlite] occurs
    somewhere in that URL (so always for the default, and also for a URL of
    another database in which the text occurs), and no connect argument
    otherwise. *)
Theorem engine_connect_args (environ : string -> option string) :
  (Config.connect_args (Config.engine environ) = [("check_same_thread"%string, false)] <->
   exists pre post,
     Config.url (Config.engine environ) = (pre ++ "sqlite" ++ post)%string) /\
  ((forall pre post,
      Config.url (Config.engine environ) <> (pre ++ "sqlite" ++ post)%string) ->
   Config.connect_args (Config.engine environ) = []) /\
  (environ "DATABASE_URL"%string = None ->
   Config.url (Config.engine environ) = "sqlite:///./tasks.db"%string /\
   Config.connect_args (Config.engine environ) =
   [("check_same_thread"%string, false)]) /\
  (forall value, environ "DATABASE_URL"%string = Some value ->
   Config.url (Config.engine environ) = value).
Proof.
  unfold Config.engine. cbn [Config.connect_args Config.url].
  split; [|split; [|split]].
  - rewrite <- contains_app.
    destruct (Config.contains "sqlite" (Config.DATABASE_URL environ));
      split; congruence.
  - intros H.
    destruct (Config.contains "sqlite" (Config.DATABASE_URL environ)) eqn:C;
      [|reflexivity].
    apply contains_app in C. destruct C as (pre & post & C).
    now apply H in C.
  - unfold Config.DATABASE_URL, Config.getenv. intros ->. split; reflexivity.
  - unfold Config.DATABASE_URL, Config.getenv. now intros value ->.
Qed.

Lemma engine_connect_args_witness :
  Config.url (Config.engine postgres_environ) =
  "postgresql://db.example/sqlite_copy"%string /\
  Config.connect_args (Config.engine postgres_environ) =
  [("check_same_thread"%string, false)].
Proof.
  destruct (engine_connect_args postgres_environ) as (Hargs & _ & _ & Hset).
  split.
  - now apply Hset.
  - apply Hargs. exists "postgresql://db.example/"%string, "_copy"%string.
    reflexivity.
Defined.

(** *** The unit before its commit *)


